(** * chakra-client: the signaling connection manager of [ChakraClient]

    A shallow embedding of [client.ts] (class [ChakraClient]): the callback
    registry ([filterCallbacks], [resolveCallbacks], [rejectCallbacks]), the
    socket listeners installed by [registerEvents], [connect], [send],
    [createStream], [watchStream] up to the registration of its callback
    and its 'signal' listener, and the constructor.

    Conventions of the embedding.
    - The client object is a record [ChakraClient]; a method is a function
      from the record to the record.  Everything the client does to its
      collaborators (the event emitter, the handlers of a callback, the
      socket constructor, [setTimeout], [fetch]) is appended to the field
      [log].
    - JavaScript runs one task at a time.  A task is one [Event]: a call of a
      public method, an event of one of the sockets, or a timer that fires.
      The continuations of [await] are microtasks and run inside the task
      that resolves the awaited promise.
    - Each call of [connect] builds its own socket and its own promise, so a
      socket, the promise of [onceOpen] on it and the promise returned by
      that call of [connect] share one number, the index of the socket in
      [sockets].
    - The client inherits [emit], [on] and [off] from [EventEmitter]:
      [emit ('error', e)] throws [e] when no listener is attached to 'error',
      which is the state of a new client.  The record counts the listeners
      of 'error' ([error_listeners]); an exception that leaves a listener of
      the socket is the effect [Uncaught].
    - The listeners that are attached to the emitter and the handlers stored
      in a callback are observers: they return normally and do not call back
      into the client.  The same holds for the peer and the video element of
      [watchStream]; of their wiring only the 'signal' listener, which calls
      [send], is embedded ([on_signal]).
    - [window] is a declared global; the record keeps its truthiness.
    - The numbers of the reconnect schedule ([reconnectTries],
      [reconnectInterval], [reconnectIntervalMultiplier], the delay of a
      timer) are the doubles of JavaScript, with their addition and
      multiplication.  A port and the status of a message are integers;
      the text [status.toString()] is kept as the number it prints
      ([NumberToString]). *)

From Stdlib Require Import PrimFloat.
From Stdlib Require Import String DecimalString Bool Arith ZArith Lia List.
From Equations Require Import Equations.
Import ListNotations.
Open Scope string_scope.
Open Scope list_scope.
Open Scope Z_scope.

Set Implicit Arguments.

(** * Part I: the program and the vocabulary of its specification *)

(** ** Data model *)

Definition ACTION_CONNECT : string := "Connect".

Record SessionDescription := {
  sd_type : string;
  sd_sdp : string;
  sd_candidate : option string
}.

Record Options := {
  host : string;
  port : option Z;
  path : option string;
  secure : bool;
  token : string;
  autoReconnect : bool;
  reconnectInterval : float;
  reconnectIntervalMultiplier : float
}.

Record OutgoingMessage := {
  out_action : string;
  out_stream : string;
  out_data : SessionDescription;
  out_token : option string
}.

Record Message := {
  msg_action : string;
  msg_status : Z;
  msg_stream : string;
  msg_data : SessionDescription
}.

(** The message of an error: a string literal of the source, or the string
    [n.toString()] of a number [n], kept as that number. *)
Inductive ErrorText :=
| Text (s : string)
| NumberToString (n : Z).

(** [class ClientError extends Error { public msg?: Message }]. *)
Record ClientError := {
  err_message : ErrorText;
  err_msg : option Message
}.

(** The two closures a call of [watchStream] stores in its callback: its
    [onStream] and the [reject] of the promise it returns.  [w] numbers the
    calls of [watchStream]. *)
Inductive Handler :=
| OnStream (w : nat)
| PromiseReject (w : nat).

Record Callback := {
  cb_stream : string;
  cb_resolve : Handler;
  cb_reject : Handler
}.

Inductive Value :=
| VNone
| VData (d : SessionDescription)
| VError (e : ClientError)
| VMessage (m : Message)
| VThrown (e : string)
| VSocketEvent (e : string).

Inductive Effect :=
| Emit (event : string) (arg : Value)
| Call (h : Handler) (arg : Value)
| NewWebSocket (sid : nat) (url : string) (authorization : option string)
| ConnectResolved (sid : nat)
| ConnectRejected (e : string)
| SetTimeout (delay : float)
| SocketSend (sid : nat) (msg : OutgoingMessage)
| Throw (e : string)
| Uncaught (arg : Value)
| Fetch (url : string) (authorization : option string) (name : string).

Definition DEFAULT_OPTS : Options := {|
  host := "127.0.0.1";
  port := None;
  path := None;
  secure := false;
  token := "";
  autoReconnect := true;
  reconnectInterval := 2000%float;
  reconnectIntervalMultiplier := 1%float
|}.

(** ** The callback registry *)

(** [callbacks[i]]: [undefined] outside the array. *)
Definition array_get (A : Type) (l : list A) (i : Z) : option A :=
  if i <? 0 then None else nth_error l (Z.to_nat i).

(** [callbacks.splice(i, 1)] for an index inside the array. *)
Definition splice (A : Type) (l : list A) (i : Z) : list A :=
  firstn (Z.to_nat i) l ++ skipn (S (Z.to_nat i)) l.

Definition inspect (A : Type) (a : A) : {b : A | a = b} := exist _ a eq_refl.

(** A handler of [filterCallbacks] returns a boolean; what it does on the
    way (it calls [callback.resolve] or [callback.reject]) is the list of
    effects it returns with it. *)
Definition FilterHandler := Callback -> list Effect * bool.

(** The loop of [filterCallbacks], from the index [i] on:
    [for (; i < callbacks.length; i++) { ... splice(i, 1); i-- ... }]. *)
Equations? filterCallbacks_loop (handler : FilterHandler) (i : Z)
    (callbacks : list Callback) (out : list Effect)
    : list Callback * list Effect
    by wf (Z.to_nat (Z.of_nat (length callbacks) - i)) lt :=
  filterCallbacks_loop handler i callbacks out
    with Z_lt_dec i (Z.of_nat (length callbacks)) => {
    | right _ => (callbacks, out)
    | left _ with inspect (array_get callbacks i) => {
      | exist _ None _ => (callbacks, out)
      | exist _ (Some callback) Hget with inspect (handler callback) => {
        | exist _ (effects, true) _ =>
            filterCallbacks_loop handler (i + 1) callbacks (out ++ effects)
        | exist _ (effects, false) _ =>
            filterCallbacks_loop handler (i - 1 + 1) (splice callbacks i)
              (out ++ effects) } } }.
Proof.
  - lia.
  - unfold array_get in Hget.
    destruct (i <? 0) eqn:Hneg; [discriminate|]. apply Z.ltb_ge in Hneg.
    assert (Hlt : (Z.to_nat i < length callbacks)%nat)
      by (apply nth_error_Some; congruence).
    unfold splice. rewrite length_app, length_firstn, length_skipn. lia.
Qed.

Definition filterCallbacks (handler : FilterHandler)
    (callbacks : list Callback) : list Callback * list Effect :=
  filterCallbacks_loop handler 0 callbacks [].

Definition resolveHandler (stream : string) (data : SessionDescription)
    : FilterHandler :=
  fun callback =>
    if String.eqb (cb_stream callback) stream
    then ([Call (cb_resolve callback) (VData data)], false)
    else ([], true).

Definition rejectHandler (stream : string) (error : ClientError)
    : FilterHandler :=
  fun callback =>
    if String.eqb (cb_stream callback) stream
    then ([Call (cb_reject callback) (VError error)], false)
    else ([], true).

Definition resolveCallbacks (stream : string) (data : SessionDescription)
    (callbacks : list Callback) : list Callback * list Effect :=
  filterCallbacks (resolveHandler stream data) callbacks.

Definition rejectCallbacks (stream : string) (error : ClientError)
    (callbacks : list Callback) : list Callback * list Effect :=
  filterCallbacks (rejectHandler stream error) callbacks.

Definition other_stream (stream : string) (c : Callback) : bool :=
  negb (String.eqb (cb_stream c) stream).

Definition same_stream (stream : string) (c : Callback) : bool :=
  String.eqb (cb_stream c) stream.

(** ** The client object and the run-time around it *)

(** The outcome of [new WebSocket(url, opts)]. *)
Inductive Construction :=
| Constructs
| Throws (e : string).

(** One socket built by [connect].  [registerEvents] attaches the same
    'message', 'error' and 'close' listeners to each of them, so only the
    'open' side differs from socket to socket. *)
Record Socket := {
  open_listener : bool;
    (* [handler] of [onceOpen] is attached to 'open' *)
  opened : bool;
    (* the promise of [onceOpen] is resolved *)
  awaiting : option (nat * string);
    (* the call of [watchStream] (its number and its [name]) suspended at
       [await this.connect()] for this socket *)
  closed : bool
    (* the 'close' event of this socket was delivered *)
}.

Record ChakraClient := {
  opts : Options;
  socket : option nat;
  reconnectTries : float;
  destroyed : bool;
  connected : bool;
  callbacks : list Callback;
  error_listeners : nat;
    (* the listeners attached to 'error' on the client *)
  window : bool;
  sockets : list Socket;
  timers : list float;
  watches : nat;
  log : list Effect
}.

Definition set_socket (v : option nat) (c : ChakraClient) : ChakraClient :=
  {| opts := opts c; socket := v; reconnectTries := reconnectTries c;
     destroyed := destroyed c; connected := connected c;
     callbacks := callbacks c; error_listeners := error_listeners c;
     window := window c; sockets := sockets c;
     timers := timers c; watches := watches c; log := log c |}.

Definition set_reconnectTries (v : float) (c : ChakraClient) : ChakraClient :=
  {| opts := opts c; socket := socket c; reconnectTries := v;
     destroyed := destroyed c; connected := connected c;
     callbacks := callbacks c; error_listeners := error_listeners c;
     window := window c; sockets := sockets c;
     timers := timers c; watches := watches c; log := log c |}.

Definition set_connected (v : bool) (c : ChakraClient) : ChakraClient :=
  {| opts := opts c; socket := socket c; reconnectTries := reconnectTries c;
     destroyed := destroyed c; connected := v;
     callbacks := callbacks c; error_listeners := error_listeners c;
     window := window c; sockets := sockets c;
     timers := timers c; watches := watches c; log := log c |}.

Definition set_callbacks (v : list Callback) (c : ChakraClient)
    : ChakraClient :=
  {| opts := opts c; socket := socket c; reconnectTries := reconnectTries c;
     destroyed := destroyed c; connected := connected c;
     callbacks := v; error_listeners := error_listeners c;
     window := window c; sockets := sockets c;
     timers := timers c; watches := watches c; log := log c |}.

Definition set_error_listeners (v : nat) (c : ChakraClient)
    : ChakraClient :=
  {| opts := opts c; socket := socket c; reconnectTries := reconnectTries c;
     destroyed := destroyed c; connected := connected c;
     callbacks := callbacks c; error_listeners := v;
     window := window c; sockets := sockets c;
     timers := timers c; watches := watches c; log := log c |}.

Definition set_sockets (v : list Socket) (c : ChakraClient) : ChakraClient :=
  {| opts := opts c; socket := socket c; reconnectTries := reconnectTries c;
     destroyed := destroyed c; connected := connected c;
     callbacks := callbacks c; error_listeners := error_listeners c;
     window := window c; sockets := v;
     timers := timers c; watches := watches c; log := log c |}.

Definition set_timers (v : list float) (c : ChakraClient) : ChakraClient :=
  {| opts := opts c; socket := socket c; reconnectTries := reconnectTries c;
     destroyed := destroyed c; connected := connected c;
     callbacks := callbacks c; error_listeners := error_listeners c;
     window := window c; sockets := sockets c;
     timers := v; watches := watches c; log := log c |}.

Definition set_watches (v : nat) (c : ChakraClient) : ChakraClient :=
  {| opts := opts c; socket := socket c; reconnectTries := reconnectTries c;
     destroyed := destroyed c; connected := connected c;
     callbacks := callbacks c; error_listeners := error_listeners c;
     window := window c; sockets := sockets c;
     timers := timers c; watches := v; log := log c |}.

Definition add_log (effects : list Effect) (c : ChakraClient)
    : ChakraClient :=
  {| opts := opts c; socket := socket c; reconnectTries := reconnectTries c;
     destroyed := destroyed c; connected := connected c;
     callbacks := callbacks c; error_listeners := error_listeners c;
     window := window c; sockets := sockets c;
     timers := timers c; watches := watches c; log := log c ++ effects |}.

(** [emitter.on(event, listener)] and [emitter.off(event, listener)] for a
    listener that is attached: only the listeners of 'error' change what
    the client does. *)
Definition addListener (event : string) (c : ChakraClient) : ChakraClient :=
  if String.eqb event "error"
  then set_error_listeners (S (error_listeners c)) c
  else c.

Definition removeListener (event : string) (c : ChakraClient)
    : ChakraClient :=
  if String.eqb event "error"
  then set_error_listeners (pred (error_listeners c)) c
  else c.

(** [this.emit(event, arg)] throws [arg] exactly when the event is 'error'
    and no listener is attached to it. *)
Definition emit_throws (event : string) (c : ChakraClient) : bool :=
  String.eqb event "error" && Nat.eqb (error_listeners c) 0.

(** [this.emit(event, arg)]: the call, and the exception that leaves it when
    it throws, which nothing in the client catches.  What follows the call
    in the source runs only if [emit_throws] is false. *)
Definition emit (event : string) (arg : Value) (c : ChakraClient)
    : ChakraClient :=
  add_log (Emit event arg :: if emit_throws event c then [Uncaught arg] else [])
    c.

(** The client after [new ChakraClient(opts)], [o] being the options after
    the defaults and the [url] option are merged in. *)
Definition new_client (o : Options) (w : bool) : ChakraClient :=
  {| opts := o; socket := None; reconnectTries := 0%float;
     destroyed := false; connected := false; callbacks := [];
     error_listeners := 0%nat; window := w; sockets := [];
     timers := []; watches := 0%nat; log := [] |}.

(** The port in a template literal: [`${n}`] for an integer [n] below 10^21
    in absolute value, which prints as its decimal digits. *)
Definition toString (n : Z) : string := NilZero.string_of_int (Z.to_int n).

Definition hostname (c : ChakraClient) : string :=
  (host (opts c) ++ ":" ++
   match port (opts c) with Some p => toString p | None => "undefined" end
  )%string.

(** [path || '/']. *)
Definition path_or_root (c : ChakraClient) : string :=
  match path (opts c) with
  | Some p => if String.eqb p "" then "/" else p
  | None => "/"
  end.

Definition wsUrl (c : ChakraClient) : string :=
  ((if secure (opts c) then "wss" else "ws") ++ "://" ++ hostname c ++
   path_or_root c)%string.

Definition apiUrl (c : ChakraClient) : string :=
  ((if secure (opts c) then "https" else "http") ++ "://" ++
   hostname c)%string.

Definition bearer (c : ChakraClient) : string :=
  ("Bearer " ++ token (opts c))%string.

(** [this.resolveCallbacks] and [this.rejectCallbacks] on the client. *)
Definition this_resolveCallbacks (stream : string)
    (data : SessionDescription) (c : ChakraClient) : ChakraClient :=
  let r := resolveCallbacks stream data (callbacks c) in
  add_log (snd r) (set_callbacks (fst r) c).

Definition this_rejectCallbacks (stream : string) (error : ClientError)
    (c : ChakraClient) : ChakraClient :=
  let r := rejectCallbacks stream error (callbacks c) in
  add_log (snd r) (set_callbacks (fst r) c).

(** What a call of [connect] does before it suspends at
    [await onceOpen()]: it either has built socket [sid], or the constructor
    threw and the promise of the call is rejected. *)
Inductive ConnectResult :=
| Suspended (sid : nat)
| Rejected (e : string).

Definition new_socket (awaiter : option (nat * string)) : Socket :=
  {| open_listener := true; opened := false; awaiting := awaiter;
     closed := false |}.

Definition connect (ctor : Construction) (awaiter : option (nat * string))
    (c : ChakraClient) : ChakraClient * ConnectResult :=
  let authorization := if window c then None else Some (bearer c) in
  match ctor with
  | Throws e => (add_log [ConnectRejected e] c, Rejected e)
  | Constructs =>
      let sid := length (sockets c) in
      (add_log [NewWebSocket sid (wsUrl c) authorization]
         (set_sockets (sockets c ++ [new_socket awaiter])
            (set_socket (Some sid) c)),
       Suspended sid)
  end.

(** [new ClientError(message.status.toString())] with [error.msg = message]. *)
Definition status_error (message : Message) : ClientError :=
  {| err_message := NumberToString (msg_status message);
     err_msg := Some message |}.

(** The 'message' listener of [registerEvents], after [JSON.parse]. *)
Definition on_message (message : Message) (c : ChakraClient)
    : ChakraClient :=
  if msg_status message =? 200 then
    let c1 :=
      if String.eqb (msg_action message) ACTION_CONNECT
      then emit "stream-data" (VMessage message) c
      else c in
    this_resolveCallbacks (msg_stream message) (msg_data message) c1
  else
    let error := status_error message in
    let c1 := emit "error" (VError error) c in
    if emit_throws "error" c then c1
    else this_rejectCallbacks (msg_stream message) error c1.

(** The 'error' listener of the socket. *)
Definition on_error (err : string) (c : ChakraClient) : ChakraClient :=
  emit "error" (VSocketEvent err) c.

(** The delay of the timer the 'close' listener sets:
    [++this.reconnectTries * reconnectInterval * reconnectIntervalMultiplier]. *)
Definition reconnect_delay (tries : float) (o : Options) : float :=
  (tries * reconnectInterval o * reconnectIntervalMultiplier o)%float.

(** The 'close' listener. *)
Definition on_close (code : string) (c : ChakraClient) : ChakraClient :=
  let c1 := emit "close" (VSocketEvent code) (set_connected false c) in
  if autoReconnect (opts c1) && negb (destroyed c1) then
    let tries := (reconnectTries c1 + 1)%float in
    let delay := reconnect_delay tries (opts c1) in
    add_log [SetTimeout delay]
      (set_timers (timers c1 ++ [delay]) (set_reconnectTries tries c1))
  else c1.

(** The function given to [setTimeout] by the 'close' listener. *)
Definition on_timeout (ctor : Construction) (c : ChakraClient)
    : ChakraClient :=
  if negb (destroyed c) then fst (connect ctor None c) else c.

Definition superseded : ClientError :=
  {| err_message := Text "Request was cancelled because a new one was made";
     err_msg := None |}.

(** [watchStream] from [this.rejectCallbacks(name, ...)] to
    [this.callbacks.push(...)], for the call number [w]. *)
Definition watchStream_register (w : nat) (name : string)
    (c : ChakraClient) : ChakraClient :=
  let c1 := this_rejectCallbacks name superseded c in
  set_callbacks
    (callbacks c1 ++
       [{| cb_stream := name; cb_resolve := OnStream w;
           cb_reject := PromiseReject w |}])
    c1.

(** A call of [watchStream(name)], up to its first suspension. *)
Definition watchStream (name : string) (ctor : Construction)
    (c : ChakraClient) : ChakraClient :=
  let w := watches c in
  let c0 := set_watches (S w) c in
  if negb (connected c0) then
    match connect ctor (Some (w, name)) c0 with
    | (c1, Suspended _) => c1
    | (c1, Rejected e) => add_log [Call (PromiseReject w) (VThrown e)] c1
    end
  else watchStream_register w name c0.

Definition update_socket (sid : nat) (f : Socket -> Socket)
    (l : list Socket) : list Socket :=
  match nth_error l sid with
  | Some s => firstn sid l ++ f s :: skipn (S sid) l
  | None => l
  end.

Definition detach_open (s : Socket) : Socket :=
  {| open_listener := false; opened := opened s; awaiting := awaiting s;
     closed := closed s |}.

Definition mark_opened (s : Socket) : Socket :=
  {| open_listener := open_listener s; opened := true;
     awaiting := awaiting s; closed := closed s |}.

Definition mark_closed (s : Socket) : Socket :=
  {| open_listener := open_listener s; opened := opened s;
     awaiting := awaiting s; closed := true |}.

Definition same_socket (a : option nat) (sid : nat) : bool :=
  match a with Some n => Nat.eqb n sid | None => false end.

(** [connect] after [await onceOpen()], and then the caller that awaits
    the promise of [connect]. *)
Definition connect_resume (sid : nat) (s : Socket) (c : ChakraClient)
    : ChakraClient :=
  let c1 := emit "connect" VNone
              (set_connected true (set_reconnectTries 0%float c)) in
  let c2 := add_log [ConnectResolved sid] c1 in
  match awaiting s with
  | Some (w, name) => watchStream_register w name c2
  | None => c2
  end.

(** The 'open' event of socket [sid]: [handler] of [onceOpen] runs if it is
    attached; it resolves the promise and removes itself from [this.socket],
    which is socket [sid] only if no later [connect] replaced it. *)
Definition on_open (sid : nat) (s : Socket) (c : ChakraClient)
    : ChakraClient :=
  if open_listener s then
    let c1 := set_sockets (update_socket sid mark_opened (sockets c)) c in
    let c2 :=
      if same_socket (socket c1) sid
      then set_sockets (update_socket sid detach_open (sockets c1)) c1
      else c1 in
    if opened s then c2 else connect_resume sid s c2
  else c.

(** [send]. *)
Definition send (msg : OutgoingMessage) (c : ChakraClient) : ChakraClient :=
  match socket c with
  | Some sid => add_log [SocketSend sid msg] c
  | None => add_log [Throw "TypeError"] c
  end.

(** [createStream], up to [await fetch(...)]. *)
Definition createStream (name : string) (c : ChakraClient) : ChakraClient :=
  let authHeader :=
    if String.eqb (token (opts c)) "" then None else Some (bearer c) in
  add_log [Fetch (apiUrl c ++ "/streams")%string authHeader name] c.

(** ** Tasks *)

Inductive Event :=
| CallConnect (ctor : Construction)
| CallSend (msg : OutgoingMessage)
| CallCreateStream (name : string)
| CallWatchStream (name : string) (ctor : Construction)
| SockOpen (sid : nat)
| SockMessage (sid : nat) (message : Message)
| SockError (sid : nat) (err : string)
| SockClose (sid : nat) (code : string)
| TimerFires (n : nat) (ctor : Construction)
| CallOn (event : string)
    (* [client.on(event, listener)] *)
| CallOff (event : string)
    (* [client.off(event, listener)] for a listener that is attached; also
       the removal of a listener of [client.once] by its first call, which
       is over before the next task *).

Definition remove_nth (A : Type) (n : nat) (l : list A) : list A :=
  firstn n l ++ skipn (S n) l.

Definition step (c : ChakraClient) (e : Event) : ChakraClient :=
  match e with
  | CallConnect ctor => fst (connect ctor None c)
  | CallSend msg => send msg c
  | CallCreateStream name => createStream name c
  | CallWatchStream name ctor => watchStream name ctor c
  | SockOpen sid =>
      match nth_error (sockets c) sid with
      | Some s => on_open sid s c
      | None => c
      end
  | SockMessage sid message =>
      match nth_error (sockets c) sid with
      | Some _ => on_message message c
      | None => c
      end
  | SockError sid err =>
      match nth_error (sockets c) sid with
      | Some _ => on_error err c
      | None => c
      end
  | SockClose sid code =>
      match nth_error (sockets c) sid with
      | Some _ =>
          on_close code
            (set_sockets (update_socket sid mark_closed (sockets c)) c)
      | None => c
      end
  | TimerFires n ctor =>
      match nth_error (timers c) n with
      | Some _ => on_timeout ctor (set_timers (remove_nth n (timers c)) c)
      | None => c
      end
  | CallOn event => addListener event c
  | CallOff event => removeListener event c
  end.

Definition run (c : ChakraClient) (events : list Event) : ChakraClient :=
  fold_left step events c.

(** ** Counting effects *)

Definition is_emit (e : Effect) : bool :=
  match e with Emit _ _ => true | _ => false end.

Definition is_new_socket (e : Effect) : bool :=
  match e with NewWebSocket _ _ _ => true | _ => false end.

Definition is_timeout (e : Effect) : bool :=
  match e with SetTimeout _ => true | _ => false end.

Definition is_connect_resolved (sid : nat) (e : Effect) : bool :=
  match e with ConnectResolved n => Nat.eqb n sid | _ => false end.

Definition is_connect_rejected (e : Effect) : bool :=
  match e with ConnectRejected _ => true | _ => false end.

(** The call of [watchStream] a handler belongs to. *)
Definition owner (h : Handler) : nat :=
  match h with OnStream w => w | PromiseReject w => w end.

Definition is_call_of (w : nat) (e : Effect) : bool :=
  match e with Call h _ => Nat.eqb (owner h) w | _ => false end.

Definition count (p : Effect -> bool) (l : list Effect) : nat :=
  length (filter p l).

Arguments count : simpl never.
Arguments bearer : simpl never.
Arguments wsUrl : simpl never.
Arguments apiUrl : simpl never.
Arguments toString : simpl never.

(** Data for the scenarios: a payload, an inbound message, the callback of
    the call number [w] of [watchStream]. *)
Definition sd0 : SessionDescription :=
  {| sd_type := "answer"; sd_sdp := "v=0"; sd_candidate := None |}.

Definition inbound (action : string) (status : Z) (stream : string)
    : Message :=
  {| msg_action := action; msg_status := status; msg_stream := stream;
     msg_data := sd0 |}.

Definition pending (stream : string) (w : nat) : Callback :=
  {| cb_stream := stream; cb_resolve := OnStream w;
     cb_reject := PromiseReject w |}.

(** A connected client with a listener of 'error', one pending call for
    "s1" and one for "s3". *)
Definition client_s1 : ChakraClient :=
  {| opts := DEFAULT_OPTS; socket := Some 0%nat; reconnectTries := 0%float;
     destroyed := false; connected := true;
     callbacks := [pending "s1" 0; pending "s3" 1];
     error_listeners := 1%nat; window := true;
     sockets := [{| open_listener := false; opened := true;
                    awaiting := None; closed := false |}];
     timers := []; watches := 2%nat; log := [] |}.

(** ** Reconnection *)

(** Socket [sid] exists, so its listeners run when one of its events is
    delivered. *)
Definition delivered (c : ChakraClient) (sid : nat) : bool :=
  match nth_error (sockets c) sid with Some _ => true | None => false end.

(** An 'open' event of socket [sid] would resolve the promise of
    [onceOpen]: this is a successful Open. *)
Definition opens (c : ChakraClient) (sid : nat) : bool :=
  match nth_error (sockets c) sid with
  | Some s => open_listener s && negb (opened s)
  | None => false
  end.

(** The number of Close events since the last successful Open, after one
    more task [e] in the client [c], [k] being the number before. *)
Definition count_close (c : ChakraClient) (e : Event) (k : nat) : nat :=
  match e with
  | SockClose sid _ => if delivered c sid then S k else k
  | SockOpen sid => if opens c sid then 0%nat else k
  | _ => k
  end.

Fixpoint consecutive_closes (c : ChakraClient) (events : list Event)
    (k : nat) : nat :=
  match events with
  | [] => k
  | e :: rest => consecutive_closes (step c e) rest (count_close c e k)
  end.

(** The number [k] as a double, counted as the 'close' listener counts:
    [++] applied [k] times to 0.  Up to 2^53 this is the double [k]. *)
Fixpoint number_of (k : nat) : float :=
  match k with
  | O => 0%float
  | S n => (number_of n + 1)%float
  end.

Definition three_closes : list Event :=
  [CallConnect Constructs; SockOpen 0; SockClose 0 "1006";
   TimerFires 0 Constructs; SockClose 1 "1006"; TimerFires 0 Constructs].

(** ** The [destroyed] flag *)

(** A client whose flag is set (no task leads to it), with a pending call
    and a pending timer. *)
Definition destroyed_client : ChakraClient :=
  {| opts := DEFAULT_OPTS; socket := Some 0%nat; reconnectTries := 1%float;
     destroyed := true; connected := false;
     callbacks := [pending "s1" 0]; error_listeners := 0%nat;
     window := true;
     sockets := [{| open_listener := false; opened := true;
                    awaiting := None; closed := true |}];
     timers := [2000%float]; watches := 1%nat; log := [] |}.

(** ** Sockets *)

(** The sockets that were built and whose 'close' event has not come. *)
Definition live (c : ChakraClient) : nat :=
  length (filter (fun s => negb (closed s)) (sockets c)).

(** ** The sockets after a task *)

(** The socket a task builds, if it builds one. *)
Definition built (c : ChakraClient) (e : Event) : option Socket :=
  match e with
  | CallConnect Constructs => Some (new_socket None)
  | CallWatchStream name Constructs =>
      if connected c then None
      else Some (new_socket (Some (watches c, name)))
  | TimerFires n Constructs =>
      match nth_error (timers c) n with
      | Some _ => if destroyed c then None else Some (new_socket None)
      | None => None
      end
  | _ => None
  end.

(** What a task does to the socket [s] that has the number [n]. *)
Definition socket_after (c : ChakraClient) (e : Event) (n : nat)
    (s : Socket) : Socket :=
  match e with
  | SockOpen sid =>
      if Nat.eqb n sid && open_listener s then
        if same_socket (socket c) sid then detach_open (mark_opened s)
        else mark_opened s
      else s
  | SockClose sid _ => if Nat.eqb n sid then mark_closed s else s
  | _ => s
  end.

(** ** The promise of [connect] *)

Definition opened_flag (c : ChakraClient) (sid : nat) : bool :=
  match nth_error (sockets c) sid with Some s => opened s | None => false end.

(** The promise of the call of [connect] that built socket [sid] is
    resolved exactly when the socket is marked as opened, and a socket that
    is not yet opened still has its 'open' handler. *)
Definition handle_inv (c : ChakraClient) : Prop :=
  forall sid,
    count (is_connect_resolved sid) (log c)
      = (if opened_flag c sid then 1 else 0)%nat
    /\ (forall s, nth_error (sockets c) sid = Some s ->
                  opened s = false -> open_listener s = true).

(** A task in which a socket constructor throws. *)
Definition throws (e : Event) : bool :=
  match e with
  | CallConnect (Throws _) => true
  | CallWatchStream _ (Throws _) => true
  | TimerFires _ (Throws _) => true
  | _ => false
  end.

(** ** Terminal callbacks of a pending call *)

(** The calls of the handlers of the call number [w] of [watchStream]. *)
Definition calls (w : nat) (l : list Effect) : nat := count (is_call_of w) l.

Definition owned_by (w : nat) (cb : Callback) : bool :=
  Nat.eqb (owner (cb_resolve cb)) w.

(** The entries of the registry that the call number [w] registered. *)
Definition registered (w : nat) (l : list Callback) : nat :=
  length (filter (owned_by w) l).

(** Both handlers of a callback belong to the same call of [watchStream]. *)
Definition well_owned (cb : Callback) : Prop :=
  owner (cb_resolve cb) = owner (cb_reject cb).

Definition resumable (s : Socket) : bool :=
  open_listener s && negb (opened s).

Definition awaits (w : nat) (s : Socket) : bool :=
  match awaiting s with Some (w', _) => Nat.eqb w' w | None => false end.

Definition suspends (w : nat) (s : Socket) : bool :=
  resumable s && awaits w s.

(** The calls number [w] of [watchStream] that are suspended at
    [await this.connect()]. *)
Definition suspended (w : nat) (l : list Socket) : nat :=
  length (filter (suspends w) l).

Arguments calls : simpl never.
Arguments registered : simpl never.
Arguments suspended : simpl never.

Definition indicator (b : bool) : nat := if b then 1%nat else 0%nat.

(** What a task adds to the calls and registrations of the call [w]. *)
Definition registry_gain (w : nat) (c : ChakraClient) (e : Event) : nat :=
  match e with
  | CallWatchStream _ ctor =>
      if connected c then indicator (Nat.eqb (watches c) w)
      else match ctor with
           | Throws _ => indicator (Nat.eqb (watches c) w)
           | Constructs => 0%nat
           end
  | SockOpen sid =>
      match nth_error (sockets c) sid with
      | Some s => indicator (suspends w s)
      | None => 0%nat
      end
  | _ => 0%nat
  end.

(** What a task adds to the suspended calls number [w]. *)
Definition suspended_gain (w : nat) (c : ChakraClient) (e : Event) : nat :=
  match e with
  | CallWatchStream _ Constructs =>
      if connected c then 0%nat else indicator (Nat.eqb (watches c) w)
  | _ => 0%nat
  end.

Definition resumed (w : nat) (c : ChakraClient) (e : Event) : nat :=
  match e with
  | SockOpen sid =>
      match nth_error (sockets c) sid with
      | Some s => indicator (suspends w s)
      | None => 0%nat
      end
  | _ => 0%nat
  end.

(** The conserved quantity: for each call [w] of [watchStream], the calls
    of its handlers so far, plus its entries in the registry, plus its
    suspensions at [await this.connect()]. *)
Definition lifetime (w : nat) (c : ChakraClient) : nat :=
  (calls w (log c) + registered w (callbacks c)
   + suspended w (sockets c))%nat.

Definition started (w : nat) (c : ChakraClient) (e : Event) : nat :=
  match e with
  | CallWatchStream _ _ => indicator (Nat.eqb (watches c) w)
  | _ => 0%nat
  end.

Definition pending_inv (c : ChakraClient) : Prop :=
  Forall well_owned (callbacks c)
  /\ forall w, (lifetime w c <= 1)%nat
               /\ ((watches c <= w)%nat -> lifetime w c = 0%nat).



(** ** Supersession in [watchStream] *)

Definition is_call (e : Effect) : bool :=
  match e with Call _ _ => true | _ => false end.

(** What the inbound [message] for the stream of the pending call number
    [w] adds to the log when that call is the only one registered for the
    stream and the emit of the notification returns: the notification, if
    any, and one call of a handler of [w]. *)
Definition response_effects (w : nat) (message : Message) : list Effect :=
  if msg_status message =? 200 then
    (if String.eqb (msg_action message) ACTION_CONNECT
     then [Emit "stream-data" (VMessage message)] else []) ++
    [Call (OnStream w) (VData (msg_data message))]
  else
    [Emit "error" (VError (status_error message));
     Call (PromiseReject w) (VError (status_error message))].

(** A new client on which [watchStream "A"] was called twice and the two
    sockets opened in the order of the calls. *)
Definition connecting_pair : ChakraClient :=
  step (step (watchStream "A" Constructs
                (watchStream "A" Constructs (new_client DEFAULT_OPTS true)))
          (SockOpen 0))
    (SockOpen 1).

(** ** The constructor *)

(** The argument of the constructor: [None] is a key that is absent. *)
Record UserOptions := {
  u_host : option string;
  u_port : option Z;
  u_path : option string;
  u_secure : option bool;
  u_token : option string;
  u_autoReconnect : option bool;
  u_reconnectInterval : option float;
  u_reconnectIntervalMultiplier : option float
}.

(** The fields of [new URL(this.opts.url)] that the constructor reads.
    [url_port] is [url.port]: the decimal digits of a port number, or the
    empty string ([None]).  It is empty when the URL names no port and also
    when it names the default port of its scheme (80 for [ws:], 443 for
    [wss:]), which the parser drops. *)
Record URL := {
  url_hostname : string;
  url_port : option Z;
  url_protocol : string;
  url_pathname : string
}.

Definition or_default (A : Type) (given : option A) (default : A) : A :=
  match given with Some v => v | None => default end.

(** [{ ...DEFAULT_OPTS, ...opts }]. *)
Definition merge_defaults (u : UserOptions) : Options :=
  {| host := or_default (u_host u) (host DEFAULT_OPTS);
     port := u_port u;
     path := u_path u;
     secure := or_default (u_secure u) (secure DEFAULT_OPTS);
     token := or_default (u_token u) (token DEFAULT_OPTS);
     autoReconnect :=
       or_default (u_autoReconnect u) (autoReconnect DEFAULT_OPTS);
     reconnectInterval :=
       or_default (u_reconnectInterval u) (reconnectInterval DEFAULT_OPTS);
     reconnectIntervalMultiplier :=
       or_default (u_reconnectIntervalMultiplier u)
         (reconnectIntervalMultiplier DEFAULT_OPTS) |}.

(** [Number(url.port)]: [Number('')] is 0. *)
Definition Number_port (p : option Z) : Z :=
  match p with Some n => n | None => 0 end.

(** The options after the constructor; [url] is the parsed [opts.url] when
    that option is a non-empty string. *)
Definition constructor (u : UserOptions) (url : option URL) : Options :=
  let o := merge_defaults u in
  match url with
  | Some x =>
      {| host := url_hostname x;
         port := Some (Number_port (url_port x));
         path := Some (url_pathname x);
         secure := String.eqb (url_protocol x) "wss:";
         token := token o;
         autoReconnect := autoReconnect o;
         reconnectInterval := reconnectInterval o;
         reconnectIntervalMultiplier := reconnectIntervalMultiplier o |}
  | None => o
  end.

Definition no_options : UserOptions :=
  {| u_host := None; u_port := None; u_path := None; u_secure := None;
     u_token := None; u_autoReconnect := None; u_reconnectInterval := None;
     u_reconnectIntervalMultiplier := None |}.

(** ** The 'signal' listener of [watchStream] *)

(** [!data.candidate]. *)
Definition no_candidate (data : SessionDescription) : bool :=
  match sd_candidate data with
  | Some v => String.eqb v ""
  | None => true
  end.

Definition signal_message (stream : string) (data : SessionDescription)
    (c : ChakraClient) : OutgoingMessage :=
  {| out_action := ACTION_CONNECT; out_stream := stream; out_data := data;
     out_token := Some (token (opts c)) |}.

(** [peer.on('signal', (data) => { if (!data.candidate) this.send(...) })],
    for the peer of the call of [watchStream] whose name is [stream]. *)
Definition on_signal (stream : string) (data : SessionDescription)
    (c : ChakraClient) : ChakraClient :=
  if no_candidate data then send (signal_message stream data c) c else c.

(** ** Vocabulary of the further properties *)

(** What the dispatch of [message] adds to the log of the client [c]. *)
Definition dispatched (message : Message) (c : ChakraClient)
    : list Effect :=
  if msg_status message =? 200 then
    (if String.eqb (msg_action message) ACTION_CONNECT
     then [Emit "stream-data" (VMessage message)] else []) ++
    map (fun cb => Call (cb_resolve cb) (VData (msg_data message)))
      (filter (same_stream (msg_stream message)) (callbacks c))
  else
    Emit "error" (VError (status_error message)) ::
    (if emit_throws "error" c
     then [Uncaught (VError (status_error message))]
     else
       map (fun cb => Call (cb_reject cb) (VError (status_error message)))
         (filter (same_stream (msg_stream message)) (callbacks c))).

(** The index of the socket built last. *)
Definition last_socket (c : ChakraClient) : option nat :=
  match length (sockets c) with
  | O => None
  | S n => Some n
  end.

(** The callback was stored by [watchStream]. *)
Definition from_watchStream (cb : Callback) : Prop :=
  exists w, cb_resolve cb = OnStream w /\ cb_reject cb = PromiseReject w.

(** What a handler of a callback can be called with, and what the emitter
    can be given. *)
Definition effect_ok (e : Effect) : Prop :=
  match e with
  | Call (OnStream _) v => exists data, v = VData data
  | Call (PromiseReject _) v =>
      v = VError superseded
      \/ (exists message,
            msg_status message <> 200 /\ v = VError (status_error message))
      \/ (exists x, v = VThrown x)
  | Emit event v =>
      (event = "connect" /\ v = VNone)
      \/ (event = "close" /\ exists x, v = VSocketEvent x)
      \/ (event = "error" /\
          ((exists x, v = VSocketEvent x)
           \/ exists message,
                msg_status message <> 200
                /\ v = VError (status_error message)))
      \/ (event = "stream-data" /\
          exists message,
            v = VMessage message /\ msg_status message = 200
            /\ msg_action message = ACTION_CONNECT)
  | _ => True
  end.

(** The sockets the constructor was called for, as the log has them. *)
Definition socket_requests (c : ChakraClient) : list Effect :=
  map (fun sid =>
         NewWebSocket sid (wsUrl c)
           (if window c then None else Some (bearer c)))
    (seq 0 (length (sockets c))).

(** A call of [connect()] or of [watchStream] by the user. *)
Definition is_request (e : Event) : bool :=
  match e with
  | CallConnect _ => true
  | CallWatchStream _ _ => true
  | _ => false
  end.

Definition is_timer (e : Event) : bool :=
  match e with TimerFires _ _ => true | _ => false end.

(** A client that lost its connection, was connected again by a call of
    [connect()], and still has the timer of the Close. *)
Definition reconnected_by_hand : ChakraClient :=
  run (new_client DEFAULT_OPTS true)
    [CallConnect Constructs; SockOpen 0; SockClose 0 "1006";
     CallConnect Constructs; SockOpen 1].

Definition example_url : URL :=
  {| url_hostname := "example.com"; url_port := Some 8443;
     url_protocol := "wss:"; url_pathname := "/signal" |}.

(** [new URL('wss://example.com:443/signal')]: 443 is the default port of
    [wss:], so [url.port] is empty. *)
Definition default_port_url : URL :=
  {| url_hostname := "example.com"; url_port := None;
     url_protocol := "wss:"; url_pathname := "/signal" |}.

(** The options of a client whose user turned [autoReconnect] off. *)
Definition manual_options : Options :=
  constructor
    {| u_host := None; u_port := Some 8080; u_path := None;
       u_secure := None; u_token := None; u_autoReconnect := Some false;
       u_reconnectInterval := None; u_reconnectIntervalMultiplier := None |}
    None.

(** A client after its only socket closed: the timer of the reconnect is
    pending. *)
Definition closed_once : ChakraClient :=
  run (new_client DEFAULT_OPTS true)
    [CallConnect Constructs; SockOpen 0; SockClose 0 "1006"].

Definition offer : SessionDescription :=
  {| sd_type := "offer"; sd_sdp := "v=0"; sd_candidate := None |}.

(** The client without its log: the fields of the object and the sockets
    and timers around it. *)
Definition forget_log (c : ChakraClient) : ChakraClient :=
  {| opts := opts c; socket := socket c; reconnectTries := reconnectTries c;
     destroyed := destroyed c; connected := connected c;
     callbacks := callbacks c; error_listeners := error_listeners c;
     window := window c; sockets := sockets c;
     timers := timers c; watches := watches c; log := [] |}.

(** A call of [send] or of [createStream]. *)
Definition is_io (e : Event) : bool :=
  match e with
  | CallSend _ => true
  | CallCreateStream _ => true
  | _ => false
  end.

(** * Part II: lemmas and theorems *)

(** ** The callback registry *)

Lemma array_get_Some (A : Type) (l : list A) (i : Z) (x : A) :
  array_get l i = Some x -> 0 <= i < Z.of_nat (length l).
Proof.
  unfold array_get. destruct (i <? 0) eqn:Hneg; [discriminate|].
  intros H. apply Z.ltb_ge in Hneg.
  assert (Hlt : (Z.to_nat i < length l)%nat)
    by (apply nth_error_Some; congruence).
  lia.
Qed.

Lemma array_get_None (A : Type) (l : list A) (i : Z) :
  array_get l i = None -> i < 0 \/ Z.of_nat (length l) <= i.
Proof.
  unfold array_get. destruct (i <? 0) eqn:Hneg.
  - intros _. left. now apply Z.ltb_lt.
  - intros H. apply nth_error_None in H. apply Z.ltb_ge in Hneg. lia.
Qed.

Lemma array_get_nth (A : Type) (l : list A) (i : Z) (x : A) :
  array_get l i = Some x -> nth_error l (Z.to_nat i) = Some x.
Proof.
  unfold array_get. destruct (i <? 0); [discriminate | trivial].
Qed.

Lemma splice_length (A : Type) (l : list A) (i : Z) :
  0 <= i < Z.of_nat (length l) ->
  length (splice l i) = (length l - 1)%nat.
Proof.
  intros Hi. unfold splice.
  rewrite length_app, length_firstn, length_skipn. lia.
Qed.

Lemma skipn_nth_error (A : Type) (l : list A) (n : nat) (x : A) :
  nth_error l n = Some x -> skipn n l = x :: skipn (S n) l.
Proof.
  revert n. induction l as [|a l IH]; intros [|n] H; simpl in *;
    try discriminate.
  - congruence.
  - apply IH in H. rewrite H. reflexivity.
Qed.

Lemma firstn_nth_error (A : Type) (l : list A) (n : nat) (x : A) :
  nth_error l n = Some x -> firstn (S n) l = firstn n l ++ [x].
Proof.
  revert n. induction l as [|a l IH]; intros [|n] H; simpl in *;
    try discriminate.
  - congruence.
  - apply IH in H. simpl in H. rewrite H. reflexivity.
Qed.

Lemma firstn_app_exact (A : Type) (l1 l2 : list A) (n : nat) :
  n = length l1 -> firstn n (l1 ++ l2) = l1.
Proof.
  intros ->. rewrite firstn_app, Nat.sub_diag, firstn_all. simpl.
  apply app_nil_r.
Qed.

Lemma skipn_app_exact (A : Type) (l1 l2 : list A) (n : nat) :
  n = length l1 -> skipn n (l1 ++ l2) = l2.
Proof.
  intros ->. rewrite skipn_app, Nat.sub_diag, skipn_all. reflexivity.
Qed.

Lemma firstn_splice (A : Type) (l : list A) (i : Z) :
  0 <= i < Z.of_nat (length l) ->
  firstn (Z.to_nat i) (splice l i) = firstn (Z.to_nat i) l.
Proof.
  intros Hi. unfold splice. apply firstn_app_exact.
  rewrite length_firstn. lia.
Qed.

Lemma skipn_splice (A : Type) (l : list A) (i : Z) :
  0 <= i < Z.of_nat (length l) ->
  skipn (Z.to_nat i) (splice l i) = skipn (S (Z.to_nat i)) l.
Proof.
  intros Hi. unfold splice. apply skipn_app_exact.
  rewrite length_firstn. lia.
Qed.

(** What the loop computes, for a start index inside the array: the entries
    before [i] stay, the entries from [i] on are each handed to the handler
    once, in order, and kept when it returns [true]. *)
Lemma filterCallbacks_loop_spec (handler : FilterHandler) (i : Z)
    (cbs : list Callback) (out : list Effect) :
  0 <= i <= Z.of_nat (length cbs) ->
  filterCallbacks_loop handler i cbs out =
    (firstn (Z.to_nat i) cbs ++
       filter (fun c => snd (handler c)) (skipn (Z.to_nat i) cbs),
     out ++ flat_map (fun c => fst (handler c)) (skipn (Z.to_nat i) cbs)).
Proof.
  funelim (filterCallbacks_loop handler i cbs out); intros Hi.
  - rewrite skipn_all2, firstn_all2 by lia. simpl. now rewrite !app_nil_r.
  - exfalso. pose proof (array_get_None _ _ e). lia.
  - pose proof (array_get_Some _ _ Hget) as Hin.
    pose proof (array_get_nth _ _ Hget) as Hnth.
    rewrite H by lia. clear H Heqcall.
    replace (Z.to_nat (i + 1)) with (S (Z.to_nat i)) by lia.
    rewrite (skipn_nth_error _ _ Hnth), (firstn_nth_error _ _ Hnth).
    simpl. rewrite e. simpl. now rewrite <- !app_assoc.
  - pose proof (array_get_Some _ _ Hget) as Hin.
    pose proof (array_get_nth _ _ Hget) as Hnth.
    rewrite H by (rewrite splice_length; lia). clear H Heqcall.
    replace (Z.to_nat (i - 1 + 1)) with (Z.to_nat i) by lia.
    rewrite firstn_splice, skipn_splice by lia.
    rewrite (skipn_nth_error _ _ Hnth).
    simpl. rewrite e. simpl. now rewrite <- !app_assoc.
Qed.

(** [filterCallbacks] is a filter that calls the handler once on each entry,
    from the first to the last. *)
Lemma filterCallbacks_spec (handler : FilterHandler)
    (cbs : list Callback) :
  filterCallbacks handler cbs =
    (filter (fun c => snd (handler c)) cbs,
     flat_map (fun c => fst (handler c)) cbs).
Proof.
  unfold filterCallbacks. rewrite filterCallbacks_loop_spec by lia.
  reflexivity.
Qed.

Lemma flat_map_cond (A B : Type) (p : A -> bool) (f : A -> B) (l : list A) :
  flat_map (fun x => fst (if p x then ([f x], false) else ([], true))) l =
  map f (filter p l).
Proof.
  induction l as [|a l IH]; simpl; [reflexivity|].
  destruct (p a); simpl; now rewrite IH.
Qed.

Lemma filter_cond (A B : Type) (p : A -> bool) (f : A -> B) (l : list A) :
  filter (fun x => snd (if p x then ([f x], false) else ([], true))) l =
  filter (fun x => negb (p x)) l.
Proof.
  apply filter_ext. intros a. now destruct (p a).
Qed.

Lemma resolveCallbacks_spec (stream : string) (data : SessionDescription)
    (cbs : list Callback) :
  resolveCallbacks stream data cbs =
    (filter (other_stream stream) cbs,
     map (fun c => Call (cb_resolve c) (VData data))
         (filter (same_stream stream) cbs)).
Proof.
  unfold resolveCallbacks, resolveHandler. rewrite filterCallbacks_spec.
  f_equal.
  - apply (filter_cond (fun c => String.eqb (cb_stream c) stream)).
  - apply (flat_map_cond (fun c => String.eqb (cb_stream c) stream)).
Qed.

Lemma rejectCallbacks_spec (stream : string) (error : ClientError)
    (cbs : list Callback) :
  rejectCallbacks stream error cbs =
    (filter (other_stream stream) cbs,
     map (fun c => Call (cb_reject c) (VError error))
         (filter (same_stream stream) cbs)).
Proof.
  unfold rejectCallbacks, rejectHandler. rewrite filterCallbacks_spec.
  f_equal.
  - apply (filter_cond (fun c => String.eqb (cb_stream c) stream)).
  - apply (flat_map_cond (fun c => String.eqb (cb_stream c) stream)).
Qed.

(** ** Counting effects *)

Lemma count_app (p : Effect -> bool) (l1 l2 : list Effect) :
  count p (l1 ++ l2) = (count p l1 + count p l2)%nat.
Proof. unfold count. now rewrite filter_app, length_app. Qed.

Lemma count_cons (p : Effect -> bool) (x : Effect) (l : list Effect) :
  count p (x :: l) = ((if p x then 1 else 0) + count p l)%nat.
Proof. unfold count. simpl. now destruct (p x). Qed.

Lemma count_nil (p : Effect -> bool) : count p [] = 0%nat.
Proof. reflexivity. Qed.

Example toString_port : toString 8443 = "8443" /\ toString 0 = "0".
Proof. split; reflexivity. Qed.

(** The loop on a registry where the entries to remove are next to each
    other, at the start and at the end. *)
Example filterCallbacks_adjacent :
  resolveCallbacks "a" sd0
    [pending "a" 0; pending "a" 1; pending "b" 2; pending "a" 3]
  = ([pending "b" 2],
     [Call (OnStream 0) (VData sd0); Call (OnStream 1) (VData sd0);
      Call (OnStream 3) (VData sd0)]).
Proof. vm_compute. reflexivity. Qed.

(** ** The registry: [filterCallbacks], [resolveCallbacks], [rejectCallbacks] *)

Lemma filter_same_other (stream : string) (l : list Callback) :
  filter (same_stream stream) (filter (other_stream stream) l) = [].
Proof.
  induction l as [|a l IH]; [reflexivity|].
  cbn [filter]. destruct (other_stream stream a) eqn:E; [|exact IH].
  cbn [filter]. unfold other_stream in E. apply negb_true_iff in E.
  unfold same_stream at 1. rewrite E. exact IH.
Qed.

Lemma filter_other_other (stream : string) (l : list Callback) :
  filter (other_stream stream) (filter (other_stream stream) l) =
  filter (other_stream stream) l.
Proof.
  induction l as [|a l IH]; [reflexivity|].
  cbn [filter]. destruct (other_stream stream a) eqn:E; [|exact IH].
  cbn [filter]. rewrite E, IH. reflexivity.
Qed.

Lemma filter_none (A : Type) (p : A -> bool) (l : list A) :
  filter p l = [] -> filter (fun x => negb (p x)) l = l.
Proof.
  induction l as [|a l IH]; simpl; [reflexivity|].
  destruct (p a); simpl; [discriminate|]. intros H. now rewrite IH.
Qed.

Lemma add_log_nil (c : ChakraClient) : add_log [] c = c.
Proof. destruct c. unfold add_log. simpl. now rewrite app_nil_r. Qed.

Lemma set_callbacks_same (c : ChakraClient) : set_callbacks (callbacks c) c = c.
Proof. now destruct c. Qed.

Lemma this_resolveCallbacks_spec (stream : string)
    (data : SessionDescription) (c : ChakraClient) :
  this_resolveCallbacks stream data c =
    add_log (map (fun cb => Call (cb_resolve cb) (VData data))
               (filter (same_stream stream) (callbacks c)))
      (set_callbacks (filter (other_stream stream) (callbacks c)) c).
Proof.
  unfold this_resolveCallbacks. now rewrite resolveCallbacks_spec.
Qed.

Lemma this_rejectCallbacks_spec (stream : string) (error : ClientError)
    (c : ChakraClient) :
  this_rejectCallbacks stream error c =
    add_log (map (fun cb => Call (cb_reject cb) (VError error))
               (filter (same_stream stream) (callbacks c)))
      (set_callbacks (filter (other_stream stream) (callbacks c)) c).
Proof.
  unfold this_rejectCallbacks. now rewrite rejectCallbacks_spec.
Qed.

(** C2.  After [resolveCallbacks(s, payload)] or [rejectCallbacks(s, error)]
    the registry has no entry whose stream is [s]; doing the same operation
    again changes nothing and calls nothing; and the traversal of
    [filterCallbacks] hands every entry to the handler exactly once, in the
    order of the array, so that the handler of every matching entry is
    called exactly once. *)
Theorem registry_cleanup (s : string) (payload : SessionDescription)
    (error : ClientError) (c : ChakraClient) :
  (filter (same_stream s) (callbacks (this_resolveCallbacks s payload c)) = []
   /\ filter (same_stream s) (callbacks (this_rejectCallbacks s error c)) = [])
  /\ (this_resolveCallbacks s payload (this_resolveCallbacks s payload c)
        = this_resolveCallbacks s payload c
      /\ this_rejectCallbacks s error (this_rejectCallbacks s error c)
        = this_rejectCallbacks s error c)
  /\ (forall handler : FilterHandler,
        snd (filterCallbacks handler (callbacks c)) =
        flat_map (fun cb => fst (handler cb)) (callbacks c))
  /\ (log (this_resolveCallbacks s payload c) =
        log c ++ map (fun cb => Call (cb_resolve cb) (VData payload))
                   (filter (same_stream s) (callbacks c))
      /\ log (this_rejectCallbacks s error c) =
        log c ++ map (fun cb => Call (cb_reject cb) (VError error))
                   (filter (same_stream s) (callbacks c))).
Proof.
  repeat split.
  - rewrite this_resolveCallbacks_spec. simpl. apply filter_same_other.
  - rewrite this_rejectCallbacks_spec. simpl. apply filter_same_other.
  - rewrite (this_resolveCallbacks_spec s payload (this_resolveCallbacks _ _ _)).
    rewrite (this_resolveCallbacks_spec s payload c) at 1 2 3. simpl.
    rewrite filter_same_other, filter_other_other. simpl.
    rewrite add_log_nil. rewrite this_resolveCallbacks_spec.
    reflexivity.
  - rewrite (this_rejectCallbacks_spec s error (this_rejectCallbacks _ _ _)).
    rewrite (this_rejectCallbacks_spec s error c) at 1 2 3. simpl.
    rewrite filter_same_other, filter_other_other. simpl.
    rewrite add_log_nil. rewrite this_rejectCallbacks_spec.
    reflexivity.
  - intros handler. now rewrite filterCallbacks_spec.
  - now rewrite this_resolveCallbacks_spec.
  - now rewrite this_rejectCallbacks_spec.
Qed.

(** C10.  [resolveCallbacks(s, _)] and [rejectCallbacks(s, _)] keep every
    callback whose stream differs from [s]: the registry afterwards is the
    registry before without the entries of [s], each kept entry being the
    same record (same stream, same handlers) at the same relative place. *)
Theorem registry_frame (s : string) (payload : SessionDescription)
    (error : ClientError) (c : ChakraClient) :
  callbacks (this_resolveCallbacks s payload c)
    = filter (other_stream s) (callbacks c)
  /\ callbacks (this_rejectCallbacks s error c)
    = filter (other_stream s) (callbacks c)
  /\ (forall cb, In cb (callbacks c) -> cb_stream cb <> s ->
        In cb (callbacks (this_resolveCallbacks s payload c))
        /\ In cb (callbacks (this_rejectCallbacks s error c))).
Proof.
  rewrite this_resolveCallbacks_spec, this_rejectCallbacks_spec. simpl.
  repeat split; apply filter_In; split; trivial;
    unfold other_stream; apply negb_true_iff, String.eqb_neq; assumption.
Qed.

Example registry_frame_witness :
  In (pending "s3" 1) (callbacks client_s1) /\ "s3" <> "s1" /\
  In (pending "s3" 1) (callbacks (this_resolveCallbacks "s1" sd0 client_s1)).
Proof.
  assert (H1 : In (pending "s3" 1) (callbacks client_s1))
    by (simpl; auto).
  assert (H2 : cb_stream (pending "s3" 1) <> "s1") by discriminate.
  split; [exact H1|]. split; [exact H2|].
  exact (proj1 (proj2 (proj2 (registry_frame "s1" sd0 superseded client_s1))
                  (pending "s3" 1) H1 H2)).
Defined.

(** ** The dispatcher: the 'message' listener *)

Lemma map_call_no_emit (A : Type) (f : A -> Handler) (v : Value)
    (l : list A) :
  filter is_emit (map (fun x => Call (f x) v) l) = [].
Proof. induction l as [|a l IH]; simpl; trivial. Qed.

Lemma emit_throws_error (c : ChakraClient) :
  emit_throws "error" c = Nat.eqb (error_listeners c) 0.
Proof. reflexivity. Qed.

Lemma emit_heard (c : ChakraClient) :
  error_listeners c <> 0%nat -> emit_throws "error" c = false.
Proof. intros H. rewrite emit_throws_error. now apply Nat.eqb_neq. Qed.

Lemma emit_unheard (c : ChakraClient) :
  error_listeners c = 0%nat -> emit_throws "error" c = true.
Proof. intros H. rewrite emit_throws_error. now apply Nat.eqb_eq. Qed.

Lemma on_message_failure (message : Message) (c : ChakraClient) :
  msg_status message <> 200 ->
  on_message message c =
  if emit_throws "error" c
  then emit "error" (VError (status_error message)) c
  else this_rejectCallbacks (msg_stream message) (status_error message)
         (emit "error" (VError (status_error message)) c).
Proof.
  intros Hstatus. unfold on_message. apply Z.eqb_neq in Hstatus.
  now rewrite Hstatus.
Qed.

Lemma unheard_failure_state (message : Message)
    (c : ChakraClient) :
  msg_status message <> 200 -> error_listeners c = 0%nat ->
  on_message message c
  = add_log [Emit "error" (VError (status_error message));
             Uncaught (VError (status_error message))] c.
Proof.
  intros Hstatus Hunheard.
  rewrite on_message_failure by assumption.
  rewrite emit_unheard by assumption.
  unfold emit. now rewrite emit_unheard by assumption.
Qed.




(** C4.  A decoded message whose status is 200 resolves every pending call
    of its stream with its payload; when its action is "Connect" the
    dispatcher emits a "stream-data" notification carrying the message
    before that, and for any other action it emits no notification. *)
Theorem dispatch_success (message : Message) (c : ChakraClient) :
  msg_status message = 200 ->
  let matching := filter (same_stream (msg_stream message)) (callbacks c) in
  let resolutions :=
    map (fun cb => Call (cb_resolve cb) (VData (msg_data message)))
      matching in
  (msg_action message = ACTION_CONNECT ->
   log (on_message message c)
     = log c ++ Emit "stream-data" (VMessage message) :: resolutions)
  /\ (msg_action message <> ACTION_CONNECT ->
      log (on_message message c) = log c ++ resolutions)
  /\ filter is_emit resolutions = []
  /\ callbacks (on_message message c)
       = filter (other_stream (msg_stream message)) (callbacks c).
Proof.
  intros Hstatus matching resolutions.
  unfold on_message. rewrite Hstatus, Z.eqb_refl.
  rewrite this_resolveCallbacks_spec.
  repeat split.
  - intros Haction. rewrite Haction, String.eqb_refl. simpl.
    now rewrite <- app_assoc.
  - intros Haction. apply String.eqb_neq in Haction. now rewrite Haction.
  - apply map_call_no_emit.
  - destruct (String.eqb _ _); reflexivity.
Qed.

Example dispatch_success_witness :
  msg_status (inbound "Connect" 200 "s1") = 200 /\
  inbound "Connect" 200 "s1" = inbound ACTION_CONNECT 200 "s1" /\
  log (on_message (inbound "Connect" 200 "s1") client_s1) =
    [Emit "stream-data" (VMessage (inbound "Connect" 200 "s1"));
     Call (OnStream 0) (VData sd0)] /\
  log (on_message (inbound "Offer" 200 "s1") client_s1) =
    [Call (OnStream 0) (VData sd0)].
Proof.
  split; [reflexivity|]. split; [reflexivity|]. split.
  - exact (proj1 (@dispatch_success (inbound "Connect" 200 "s1") client_s1
                    eq_refl) eq_refl).
  - refine (proj1 (proj2 (@dispatch_success (inbound "Offer" 200 "s1")
                            client_s1 eq_refl)) _).
    discriminate.
Defined.

(** ** What a task leaves alone *)

Ltac unfold_step :=
  unfold step, on_open, connect_resume, watchStream, watchStream_register,
    on_close, on_timeout, on_message, on_error, send, createStream, connect,
    this_rejectCallbacks, this_resolveCallbacks, emit, emit_throws,
    addListener, removeListener.

Ltac split_cases :=
  repeat match goal with
    | x : Construction |- _ => destruct x
    end;
  cbn;
  repeat match goal with
    | |- context [match ?x with _ => _ end] =>
        lazymatch x with
        | context [match _ with _ => _ end] => fail
        | _ => destruct x eqn:?; cbn
        end
    end.

Lemma step_destroyed (c : ChakraClient) (e : Event) :
  destroyed (step c e) = destroyed c.
Proof. destruct e; unfold_step; split_cases; reflexivity. Qed.

Lemma step_opts (c : ChakraClient) (e : Event) : opts (step c e) = opts c.
Proof. destruct e; unfold_step; split_cases; reflexivity. Qed.

Lemma run_app (c : ChakraClient) (l1 l2 : list Event) :
  run c (l1 ++ l2) = run (run c l1) l2.
Proof. apply fold_left_app. Qed.

Lemma run_cons (c : ChakraClient) (e : Event) (events : list Event) :
  run c (e :: events) = run (step c e) events.
Proof. reflexivity. Qed.

Lemma run_snoc (c : ChakraClient) (e : Event) (events : list Event) :
  run c (events ++ [e]) = step (run c events) e.
Proof. now rewrite run_app. Qed.

Lemma run_destroyed (events : list Event) (c : ChakraClient) :
  destroyed (run c events) = destroyed c.
Proof.
  revert c. induction events as [|e events IH]; intros c; trivial.
  now rewrite run_cons, IH, step_destroyed.
Qed.

Lemma run_opts (events : list Event) (c : ChakraClient) :
  opts (run c events) = opts c.
Proof.
  revert c. induction events as [|e events IH]; intros c; trivial.
  now rewrite run_cons, IH, step_opts.
Qed.

(** ** Reconnection *)

Lemma consecutive_closes_snoc (events : list Event) (c : ChakraClient)
    (e : Event) (k : nat) :
  consecutive_closes c (events ++ [e]) k =
  count_close (run c events) e (consecutive_closes c events k).
Proof.
  revert c k. induction events as [|a events IH]; intros c k; simpl;
    [reflexivity | apply IH].
Qed.

Lemma step_reconnectTries (c : ChakraClient) (e : Event) (k : nat) :
  autoReconnect (opts c) = true -> destroyed c = false ->
  reconnectTries c = number_of k ->
  reconnectTries (step c e) = number_of (count_close c e k).
Proof.
  intros Hauto Hlive Hk.
  destruct e; unfold count_close, delivered, opens; unfold_step;
    split_cases; try assumption; try discriminate;
    cbn in *; try congruence.
  rewrite Hauto, Hlive in *. discriminate.
Qed.

Lemma run_reconnectTries (events : list Event) (c : ChakraClient)
    (k : nat) :
  autoReconnect (opts c) = true -> destroyed c = false ->
  reconnectTries c = number_of k ->
  reconnectTries (run c events) = number_of (consecutive_closes c events k).
Proof.
  revert c k.
  induction events as [|e events IH]; intros c k Hauto Hlive Hk; trivial.
  rewrite run_cons. simpl.
  apply IH; rewrite ?step_opts, ?step_destroyed; trivial.
  now apply step_reconnectTries.
Qed.

(** C5.  With [autoReconnect] on and the client not destroyed, the k-th
    Close in a row since the last successful Open sets the timer of the next
    [connect()] to [k * reconnectInterval * reconnectIntervalMultiplier],
    the product of doubles that the listener computes from its counter
    [number_of k], and a successful Open puts the counter back to 0, so the
    next Close starts again from one interval.  [c0] is any client whose
    counter is 0 (a new client, or a client just after a successful
    Open). *)
Theorem reconnect_schedule (c0 : ChakraClient) (events : list Event) :
  autoReconnect (opts c0) = true ->
  destroyed c0 = false ->
  reconnectTries c0 = 0%float ->
  let c := run c0 events in
  let interval := reconnectInterval (opts c0) in
  let multiplier := reconnectIntervalMultiplier (opts c0) in
  reconnectTries c = number_of (consecutive_closes c0 events 0)
  /\ (forall sid code k,
        delivered c sid = true ->
        consecutive_closes c0 (events ++ [SockClose sid code]) 0 = k ->
        timers (step c (SockClose sid code))
          = timers c ++ [(number_of k * interval * multiplier)%float]
        /\ log (step c (SockClose sid code))
          = log c ++ [Emit "close" (VSocketEvent code);
                      SetTimeout (number_of k * interval * multiplier)%float]
        /\ reconnectTries (step c (SockClose sid code)) = number_of k)
  /\ (forall sid,
        opens c sid = true ->
        reconnectTries (step c (SockOpen sid)) = 0%float
        /\ consecutive_closes c0 (events ++ [SockOpen sid]) 0 = 0%nat)
  /\ (forall n delay,
        nth_error (timers c) n = Some delay ->
        step c (TimerFires n Constructs)
          = fst (connect Constructs None
                   (set_timers (remove_nth n (timers c)) c))).
Proof.
  intros Hauto Hlive Hzero c interval multiplier.
  assert (Htries : reconnectTries c
                   = number_of (consecutive_closes c0 events 0)).
  { subst c. now apply run_reconnectTries. }
  assert (Hauto' : autoReconnect (opts c) = true)
    by (subst c; now rewrite run_opts).
  assert (Hlive' : destroyed c = false)
    by (subst c; now rewrite run_destroyed).
  assert (Hopts : opts c = opts c0) by (subst c; apply run_opts).
  split; [exact Htries|]. split; [|split].
  - intros sid code k Hsid Hk.
    rewrite consecutive_closes_snoc in Hk. fold c in Hk.
    unfold count_close in Hk. rewrite Hsid in Hk. subst k.
    unfold delivered in Hsid. unfold step.
    destruct (nth_error (sockets c) sid); [|discriminate].
    unfold on_close, emit, reconnect_delay. cbn.
    rewrite Hauto', Hlive'. cbn. rewrite Htries, Hopts.
    repeat split. now rewrite <- app_assoc.
  - intros sid Hopens. rewrite consecutive_closes_snoc. fold c.
    unfold count_close. rewrite Hopens. split; [|reflexivity].
    rewrite (@step_reconnectTries c (SockOpen sid) _ Hauto' Hlive' Htries).
    unfold count_close. now rewrite Hopens.
  - intros n delay Hn. unfold step, on_timeout. rewrite Hn. cbn.
    now rewrite Hlive'.
Qed.

Example reconnect_schedule_witness :
  (autoReconnect (opts (new_client DEFAULT_OPTS true)) = true
   /\ destroyed (new_client DEFAULT_OPTS true) = false
   /\ reconnectTries (new_client DEFAULT_OPTS true) = 0%float)
  /\ timers (step (run (new_client DEFAULT_OPTS true) three_closes)
               (SockClose 2 "1006"))
     = timers (run (new_client DEFAULT_OPTS true) three_closes)
         ++ [(number_of 3 * 2000 * 1)%float].
Proof.
  split; [repeat split|].
  assert (Hsocket : delivered (run (new_client DEFAULT_OPTS true)
                                 three_closes) 2 = true)
    by (vm_compute; reflexivity).
  assert (Hthird : consecutive_closes (new_client DEFAULT_OPTS true)
                     (three_closes ++ [SockClose 2 "1006"]) 0 = 3%nat)
    by (vm_compute; reflexivity).
  exact (proj1 (proj1 (proj2 (@reconnect_schedule
                  (new_client DEFAULT_OPTS true) three_closes
                  eq_refl eq_refl eq_refl))
                2%nat "1006" 3%nat Hsocket Hthird)).
Defined.

(** The delays with the default options: 2000, 4000 and 6000 for three
    Close events in a row, and 2000 again after the next Open. *)
Example reconnect_schedule_defaults :
  filter is_timeout
    (log (run (new_client DEFAULT_OPTS true)
            (three_closes ++
             [SockClose 2 "1006"; TimerFires 0 Constructs; SockOpen 3;
              SockClose 3 "1006"])))
  = [SetTimeout 2000; SetTimeout 4000; SetTimeout 6000;
     SetTimeout 2000]%float.
Proof. vm_compute. reflexivity. Qed.

(** The product is the one of doubles: it is rounded where the exact
    product has more than 53 bits, and it is defined for an interval or a
    multiplier that is not an integer. *)
Example reconnect_delay_doubles :
  map number_of (seq 1 10) = [1; 2; 3; 4; 5; 6; 7; 8; 9; 10]%float
  /\ (number_of 1 * 9007199254740991 * 3 = 27021597764222972)%float
  /\ (number_of 2 * 2000 * 1.5 = 6000)%float.
Proof. vm_compute. repeat split. Qed.

(** ** Effects of the registry are calls of handlers only *)

Lemma count_map_call (p : Effect -> bool) (f : Callback -> Handler)
    (v : Value) (l : list Callback) :
  (forall h, p (Call h v) = false) ->
  count p (map (fun cb => Call (f cb) v) l) = 0%nat.
Proof.
  intros Hp. unfold count.
  induction l as [|a l IH]; simpl; [reflexivity|]. now rewrite Hp.
Qed.

Lemma count_reject (p : Effect -> bool) (s : string) (error : ClientError)
    (l : list Callback) :
  (forall h v, p (Call h v) = false) ->
  count p (snd (rejectCallbacks s error l)) = 0%nat.
Proof.
  intros Hp. rewrite rejectCallbacks_spec. simpl.
  apply count_map_call. intros h. apply Hp.
Qed.

Lemma count_resolve (p : Effect -> bool) (s : string)
    (data : SessionDescription) (l : list Callback) :
  (forall h v, p (Call h v) = false) ->
  count p (snd (resolveCallbacks s data l)) = 0%nat.
Proof.
  intros Hp. rewrite resolveCallbacks_spec. simpl.
  apply count_map_call. intros h. apply Hp.
Qed.

Ltac tidy :=
  repeat match goal with
    | H : negb _ = true |- _ => apply negb_true_iff in H
    | H : negb _ = false |- _ => apply negb_false_iff in H
    | H : _ && _ = true |- _ => apply andb_true_iff in H; destruct H
    | H : Some _ = Some _ |- _ => injection H as H
    | H : (_, _) = (_, _) |- _ => injection H as ? ?
    | H : ?b = true, H' : context [?b] |- _ => rewrite H in H'
    | H : ?b = false, H' : context [?b] |- _ => rewrite H in H'
    | H : ?b = true |- context [?b] => rewrite H
    | H : ?b = false |- context [?b] => rewrite H
    end;
  subst; try discriminate; try congruence.

Ltac count_log :=
  unfold add_log; cbn;
  rewrite ?count_app, ?count_cons, ?count_nil;
  rewrite ?count_reject, ?count_resolve by reflexivity;
  cbn.

(** ** The [destroyed] flag *)

Lemma step_timeouts (c : ChakraClient) (e : Event) :
  destroyed c = true ->
  count is_timeout (log (step c e)) = count is_timeout (log c)
  /\ match e with TimerFires _ _ => True | _ => timers (step c e) = timers c
     end.
Proof.
  intros Hdead.
  destruct e; unfold_step; split_cases; count_log;
    rewrite ?Hdead in *; try discriminate; split; trivial; lia.
Qed.

Lemma run_timeouts (events : list Event) (c : ChakraClient) :
  destroyed c = true ->
  count is_timeout (log (run c events)) = count is_timeout (log c).
Proof.
  revert c. induction events as [|e events IH]; intros c Hdead; trivial.
  rewrite run_cons, IH by (now rewrite step_destroyed).
  now apply step_timeouts.
Qed.

(** C9 (as the code has it).  No task of the client changes [destroyed]:
    the flag is [false] in a new client and stays so, there is no shutdown
    operation.  Where the flag is set, it stays set, no Close schedules a
    reconnect any more (in no continuation is a timer set), a timer that was
    pending fires without calling [connect()], and these two listeners
    leave the pending calls as they are. *)
Theorem destroyed_flag (c : ChakraClient) :
  (forall e, destroyed (step c e) = destroyed c)
  /\ (forall o w events, destroyed (run (new_client o w) events) = false)
  /\ (destroyed c = true ->
      (forall events,
         destroyed (run c events) = true
         /\ count is_timeout (log (run c events)) = count is_timeout (log c))
      /\ (forall code,
            on_close code c
              = emit "close" (VSocketEvent code) (set_connected false c))
      /\ (forall ctor, on_timeout ctor c = c)
      /\ (forall sid code n ctor,
            callbacks (step c (SockClose sid code)) = callbacks c
            /\ callbacks (step c (TimerFires n ctor)) = callbacks c)).
Proof.
  split; [intros e; apply step_destroyed|].
  split; [intros o w events; now rewrite run_destroyed|].
  intros Hdead. repeat split.
  - now rewrite run_destroyed.
  - now apply run_timeouts.
  - intros code. unfold on_close. cbn. rewrite Hdead.
    now rewrite andb_false_r.
  - intros ctor. unfold on_timeout. now rewrite Hdead.
  - unfold_step; split_cases; trivial.
  - unfold_step; split_cases; trivial.
Qed.

Example destroyed_flag_witness :
  destroyed destroyed_client = true /\
  on_timeout Constructs destroyed_client = destroyed_client /\
  log (on_close "1006" destroyed_client)
    = [Emit "close" (VSocketEvent "1006")].
Proof.
  split; [reflexivity|].
  pose proof (proj2 (proj2 (destroyed_flag destroyed_client)) eq_refl)
    as [_ [Hclose [Htimer _]]].
  split.
  - exact (Htimer Constructs).
  - exact (f_equal log (Hclose "1006")).
Defined.

(** C9, the claim as stated fails: no sequence of tasks (calls of the public
    methods included) sets the flag. *)
Example shutdown_absent :
  ~ exists events : list Event,
      destroyed (run (new_client DEFAULT_OPTS true) events) = true.
Proof.
  intros [events H]. rewrite run_destroyed in H. discriminate.
Qed.

(** ** Sockets *)

(** C8 (as the code has it).  [connect()] has no guard: every call whose
    constructor returns builds one more socket for [wsUrl], with the
    credential as a header when [window] is falsy, makes it [this.socket],
    and leaves the sockets built before as they are, so that one more socket
    is live.  The guard is in [watchStream], and it is on the flag
    [connected] only: when the flag is true no socket is built, when it is
    false [watchStream] calls [connect()], which builds one. *)
Theorem connect_builds_socket (c : ChakraClient)
    (awaiter : option (nat * string)) :
  let c' := fst (connect Constructs awaiter c) in
  (sockets c' = sockets c ++ [new_socket awaiter]
   /\ socket c' = Some (length (sockets c))
   /\ log c' = log c ++
        [NewWebSocket (length (sockets c)) (wsUrl c)
           (if window c then None else Some (bearer c))]
   /\ live c' = S (live c))
  /\ (connected c = true ->
      forall name ctor,
        sockets (watchStream name ctor c) = sockets c
        /\ socket (watchStream name ctor c) = socket c
        /\ count is_new_socket (log (watchStream name ctor c))
           = count is_new_socket (log c))
  /\ (connected c = false ->
      forall name,
        watchStream name Constructs c
          = fst (connect Constructs (Some (watches c, name))
                   (set_watches (S (watches c)) c))).
Proof.
  split; [|split].
  - unfold connect, live. cbn. repeat split.
    rewrite filter_app, length_app. cbn. lia.
  - intros Hconn name ctor. unfold watchStream. cbn. rewrite Hconn. cbn.
    unfold watchStream_register, this_rejectCallbacks. cbn.
    repeat split. count_log. lia.
  - intros Hconn name. unfold watchStream. cbn. now rewrite Hconn.
Qed.

Example connect_builds_socket_witness :
  connected client_s1 = true /\
  sockets (watchStream "s1" Constructs client_s1) = sockets client_s1.
Proof.
  split; [reflexivity|].
  exact (proj1 (proj1 (proj2 (connect_builds_socket client_s1 None))
                  eq_refl "s1" Constructs)).
Defined.

(** C8, the claim as stated fails: [connect()] called while the client is
    Open, or while it is connecting, builds a second socket while the first
    is live. *)
Example second_socket :
  let open := run (new_client DEFAULT_OPTS true)
                [CallConnect Constructs; SockOpen 0] in
  (connected open = true /\ live open = 1%nat
   /\ live (step open (CallConnect Constructs)) = 2%nat
   /\ count is_new_socket (log (step open (CallConnect Constructs))) = 2%nat)
  /\ live (run (new_client DEFAULT_OPTS true)
             [CallConnect Constructs; CallConnect Constructs]) = 2%nat.
Proof. vm_compute. repeat split. Qed.

(** ** The sockets after a task *)

Lemma update_socket_cons (f : Socket -> Socket) (a : Socket)
    (l : list Socket) (n : nat) :
  update_socket (S n) f (a :: l) = a :: update_socket n f l.
Proof. unfold update_socket. simpl. now destruct (nth_error l n). Qed.

Lemma update_socket_zero (f : Socket -> Socket) (a : Socket)
    (l : list Socket) :
  update_socket 0 f (a :: l) = f a :: l.
Proof. reflexivity. Qed.

Lemma update_socket_nil (f : Socket -> Socket) (n : nat) :
  update_socket n f [] = [].
Proof. unfold update_socket. now destruct n. Qed.

Lemma nth_error_update_socket (f : Socket -> Socket) (l : list Socket)
    (sid n : nat) :
  nth_error (update_socket sid f l) n =
  if Nat.eqb n sid then option_map f (nth_error l n) else nth_error l n.
Proof.
  revert sid n. induction l as [|a l IH]; intros sid n.
  - rewrite update_socket_nil.
    destruct (Nat.eqb n sid); destruct n; reflexivity.
  - destruct sid as [|sid].
    + rewrite update_socket_zero. now destruct n.
    + rewrite update_socket_cons. destruct n as [|n]; [reflexivity|].
      simpl. apply IH.
Qed.

Lemma update_socket_length (f : Socket -> Socket) (l : list Socket)
    (sid : nat) :
  length (update_socket sid f l) = length l.
Proof.
  revert sid. induction l as [|a l IH]; intros sid.
  - now rewrite update_socket_nil.
  - destruct sid as [|sid]; [reflexivity|].
    rewrite update_socket_cons. simpl. now rewrite IH.
Qed.

Lemma step_sockets (c : ChakraClient) (e : Event) :
  sockets (step c e) =
  match e with
  | SockOpen sid =>
      match nth_error (sockets c) sid with
      | Some s =>
          if open_listener s then
            if same_socket (socket c) sid
            then update_socket sid detach_open
                   (update_socket sid mark_opened (sockets c))
            else update_socket sid mark_opened (sockets c)
          else sockets c
      | None => sockets c
      end
  | SockClose sid _ => update_socket sid mark_closed (sockets c)
  | _ => match built c e with
         | Some s => sockets c ++ [s]
         | None => sockets c
         end
  end.
Proof.
  destruct e; unfold built; unfold_step; split_cases;
    try reflexivity; tidy.
  unfold update_socket.
  match goal with H : nth_error _ _ = None |- _ => now rewrite H end.
Qed.

Lemma step_socket_old (c : ChakraClient) (e : Event) (n : nat) (s : Socket) :
  nth_error (sockets c) n = Some s ->
  nth_error (sockets (step c e)) n = Some (socket_after c e n s).
Proof.
  intros Hn. rewrite step_sockets.
  assert (Hlt : (n < length (sockets c))%nat)
    by (apply nth_error_Some; congruence).
  destruct e; unfold socket_after;
    try (destruct (built c _); [rewrite nth_error_app1 by exact Hlt|];
         exact Hn).
  - destruct (Nat.eqb n sid) eqn:E.
    + apply Nat.eqb_eq in E. subst sid. rewrite Hn. simpl.
      destruct (open_listener s); [|exact Hn].
      destruct (same_socket (socket c) n);
        rewrite ?nth_error_update_socket, Nat.eqb_refl, Hn; reflexivity.
    + simpl. destruct (nth_error (sockets c) sid) as [s0|]; [|exact Hn].
      destruct (open_listener s0); [|exact Hn].
      destruct (same_socket (socket c) sid);
        rewrite ?nth_error_update_socket, E; exact Hn.
  - rewrite nth_error_update_socket, Hn.
    now destruct (Nat.eqb n sid).
Qed.

Lemma step_socket_new (c : ChakraClient) (e : Event) (n : nat) :
  nth_error (sockets c) n = None ->
  nth_error (sockets (step c e)) n =
  if Nat.eqb n (length (sockets c)) then built c e else None.
Proof.
  intros Hn. rewrite step_sockets.
  assert (Hge : (length (sockets c) <= n)%nat) by (now apply nth_error_None).
  assert (Happ : forall s,
            nth_error (sockets c ++ [s]) n =
            if Nat.eqb n (length (sockets c)) then Some s else None).
  { intros s. rewrite nth_error_app2 by exact Hge.
    destruct (Nat.eqb n (length (sockets c))) eqn:E.
    - apply Nat.eqb_eq in E. rewrite E, Nat.sub_diag. reflexivity.
    - apply Nat.eqb_neq in E.
      destruct (n - length (sockets c))%nat as [|k] eqn:D; [lia|].
      now destruct k. }
  assert (Hnone : (if Nat.eqb n (length (sockets c))
                   then @None Socket else None) = None)
    by (now destruct (Nat.eqb _ _)).
  destruct e;
    try (destruct (built c _) as [s|] eqn:B;
         [apply Happ | rewrite Hn; now destruct (Nat.eqb _ _)]).
  - simpl. rewrite Hnone.
    destruct (nth_error (sockets c) sid) as [s0|]; [|exact Hn].
    destruct (open_listener s0); [|exact Hn].
    destruct (same_socket (socket c) sid);
      rewrite ?nth_error_update_socket, Hn; now destruct (Nat.eqb n sid).
  - simpl. rewrite Hnone, nth_error_update_socket, Hn.
    now destruct (Nat.eqb n sid).
Qed.

(** ** The promise of [connect] *)

Lemma step_resolved (c : ChakraClient) (e : Event) (sid : nat) :
  count (is_connect_resolved sid) (log (step c e)) =
  (count (is_connect_resolved sid) (log c) +
   match e with
   | SockOpen x => if Nat.eqb x sid && opens c x then 1 else 0
   | _ => 0
   end)%nat.
Proof.
  destruct e; unfold opens;
    try match goal with
      | |- context [Nat.eqb ?a ?b] => destruct (Nat.eqb a b) eqn:?
      end;
    unfold_step; split_cases; count_log; tidy; lia.
Qed.

Lemma handle_inv_init (o : Options) (w : bool) : handle_inv (new_client o w).
Proof.
  intros sid. unfold opened_flag. simpl.
  destruct sid; simpl; split; trivial; discriminate.
Qed.

Lemma built_fresh (c : ChakraClient) (e : Event) (s : Socket) :
  built c e = Some s -> opened s = false /\ open_listener s = true.
Proof.
  destruct e; unfold built; split_cases; intros H; tidy; split; reflexivity.
Qed.

Lemma handle_inv_step (c : ChakraClient) (e : Event) :
  handle_inv c -> handle_inv (step c e).
Proof.
  intros Hinv sid. destruct (Hinv sid) as [Hcount Hlisten].
  rewrite step_resolved, Hcount. unfold opened_flag, opens.
  destruct (nth_error (sockets c) sid) as [s|] eqn:Hs.
  - rewrite (step_socket_old c e _ Hs). specialize (Hlisten s eq_refl).
    split.
    + destruct e; unfold socket_after; try lia.
      * destruct (Nat.eqb sid0 sid) eqn:E.
        -- apply Nat.eqb_eq in E. subst sid0. rewrite Hs, Nat.eqb_refl.
           destruct (open_listener s) eqn:L, (opened s) eqn:O,
             (same_socket (socket c) sid); simpl; rewrite ?O;
             try reflexivity; discriminate (Hlisten eq_refl).
        -- rewrite Nat.eqb_sym, E. simpl. lia.
      * destruct (Nat.eqb sid sid0); simpl; lia.
    + intros s' Hs' Hopened. injection Hs' as <-.
      destruct e; unfold socket_after in *; auto.
      * destruct (Nat.eqb sid sid0 && open_listener s) eqn:E; auto.
        destruct (same_socket (socket c) sid0); discriminate.
      * destruct (Nat.eqb sid sid0); auto.
  - rewrite (step_socket_new c e _ Hs).
    assert (Hzero : match e with
                    | SockOpen x =>
                        if Nat.eqb x sid &&
                           match nth_error (sockets c) x with
                           | Some s => open_listener s && negb (opened s)
                           | None => false
                           end then 1%nat else 0%nat
                    | _ => 0%nat
                    end = 0%nat).
    { destruct e; trivial. destruct (Nat.eqb sid0 sid) eqn:E; trivial.
      apply Nat.eqb_eq in E. subst sid0. now rewrite Hs. }
    rewrite Hzero.
    destruct (Nat.eqb sid (length (sockets c))); [|split; [trivial|discriminate]].
    destruct (built c e) as [s|] eqn:B; [|split; [trivial|discriminate]].
    destruct (built_fresh c e B) as [Ho Hl]. rewrite Ho. split; [trivial|].
    intros s' Hs'. injection Hs' as <-. now intros _.
Qed.

Lemma handle_inv_run (events : list Event) (c : ChakraClient) :
  handle_inv c -> handle_inv (run c events).
Proof.
  revert c. induction events as [|e events IH]; intros c Hinv; trivial.
  rewrite run_cons. apply IH. now apply handle_inv_step.
Qed.

Lemma step_rejected (c : ChakraClient) (e : Event) :
  throws e = false ->
  count is_connect_rejected (log (step c e))
    = count is_connect_rejected (log c).
Proof.
  destruct e; unfold throws; unfold_step; split_cases; count_log;
    intros; tidy; lia.
Qed.

Lemma run_unresolved (more : list Event) (c : ChakraClient) (sid : nat) :
  (forall e, In e more -> e <> SockOpen sid) ->
  count (is_connect_resolved sid) (log (run c more))
    = count (is_connect_resolved sid) (log c).
Proof.
  revert c. induction more as [|e more IH]; intros c Hno; trivial.
  rewrite run_cons, IH by (intros e' He'; apply Hno; now right).
  rewrite step_resolved.
  assert (He : e <> SockOpen sid) by (apply Hno; now left).
  destruct e; try lia.
  destruct (Nat.eqb sid0 sid) eqn:E; simpl; [|lia].
  apply Nat.eqb_eq in E. congruence.
Qed.

(** C7 (as the code has it).  The promise returned by the call of
    [connect()] that built socket [sid] is resolved at most once; it is
    resolved, exactly once, as soon as the 'open' event of that socket is
    delivered; while that event is not delivered it stays pending, whatever
    else happens (Close, reconnect, the Open of another socket); no Close,
    error or other task rejects the promise of a call of [connect()], except
    the call itself when the socket constructor throws; and the Close of
    any socket, opened or not, runs the same 'close' listener. *)
Theorem connect_handle (o : Options) (w : bool) (events : list Event)
    (sid : nat) :
  let c := run (new_client o w) events in
  (count (is_connect_resolved sid) (log c) <= 1)%nat
  /\ (delivered c sid = true ->
      count (is_connect_resolved sid) (log (step c (SockOpen sid))) = 1%nat)
  /\ (opens c sid = true ->
      forall more,
        (forall e, In e more -> e <> SockOpen sid) ->
        count (is_connect_resolved sid) (log (run c more)) = 0%nat)
  /\ (forall e,
        throws e = false ->
        count is_connect_rejected (log (step c e))
          = count is_connect_rejected (log c))
  /\ (forall x code,
        nth_error (sockets c) x <> None ->
        step c (SockClose x code)
          = on_close code
              (set_sockets (update_socket x mark_closed (sockets c)) c)).
Proof.
  intros c.
  assert (Hinv : handle_inv c)
    by (apply handle_inv_run, handle_inv_init).
  destruct (Hinv sid) as [Hcount Hlisten].
  split; [rewrite Hcount; destruct (opened_flag c sid); lia|].
  split; [|split; [|split]].
  - intros Hsid. rewrite step_resolved, Hcount, Nat.eqb_refl.
    unfold delivered in Hsid. unfold opened_flag, opens.
    destruct (nth_error (sockets c) sid) as [s|]; [|discriminate].
    specialize (Hlisten s eq_refl).
    destruct (opened s); simpl.
    + now rewrite andb_false_r.
    + now rewrite Hlisten.
  - intros Hopens more Hno. rewrite run_unresolved, Hcount by exact Hno.
    unfold opens in Hopens. unfold opened_flag.
    destruct (nth_error (sockets c) sid) as [s|]; [|reflexivity].
    apply andb_true_iff in Hopens. destruct Hopens as [_ Ho].
    apply negb_true_iff in Ho. now rewrite Ho.
  - intros e He. now apply step_rejected.
  - intros x code Hx. unfold step.
    destruct (nth_error (sockets c) x); [reflexivity|congruence].
Qed.

Example connect_handle_witness :
  delivered (run (new_client DEFAULT_OPTS true) [CallConnect Constructs]) 0
    = true /\
  count (is_connect_resolved 0)
    (log (step (run (new_client DEFAULT_OPTS true) [CallConnect Constructs])
            (SockOpen 0))) = 1%nat.
Proof.
  split; [reflexivity|].
  exact (proj1 (proj2 (connect_handle DEFAULT_OPTS true
                         [CallConnect Constructs] 0)) eq_refl).
Defined.

(** C7, the claim as stated fails: the socket of a call of [connect()]
    closes without having opened; the client reconnects with a new socket,
    which opens; the promise of the first call is neither resolved nor
    rejected, and it stays unresolved through any further tasks other than
    an Open of the closed socket. *)
Example connect_never_completes :
  let c := run (new_client DEFAULT_OPTS true)
             [CallConnect Constructs; SockClose 0 "1006";
              TimerFires 0 Constructs; SockOpen 1] in
  count (is_connect_resolved 0) (log c) = 0%nat
  /\ count is_connect_rejected (log c) = 0%nat
  /\ count (is_connect_resolved 1) (log c) = 1%nat
  /\ option_map closed (nth_error (sockets c) 0) = Some true
  /\ connected c = true
  /\ (forall more,
        (forall e, In e more -> e <> SockOpen 0) ->
        count (is_connect_resolved 0) (log (run c more)) = 0%nat).
Proof.
  intros c.
  assert (Hzero : count (is_connect_resolved 0) (log c) = 0%nat)
    by (vm_compute; reflexivity).
  split; [exact Hzero|].
  split; [vm_compute; reflexivity|].
  split; [vm_compute; reflexivity|].
  split; [vm_compute; reflexivity|].
  split; [vm_compute; reflexivity|].
  intros more Hno. now rewrite run_unresolved.
Qed.

(** ** Terminal callbacks of a pending call *)

Lemma registered_app (w : nat) (l1 l2 : list Callback) :
  registered w (l1 ++ l2) = (registered w l1 + registered w l2)%nat.
Proof. unfold registered. now rewrite filter_app, length_app. Qed.

Lemma registered_pending (w n : nat) (name : string) :
  registered w
    [{| cb_stream := name; cb_resolve := OnStream n;
        cb_reject := PromiseReject n |}]
  = if Nat.eqb n w then 1%nat else 0%nat.
Proof.
  unfold registered, owned_by. simpl. now destruct (Nat.eqb n w).
Qed.

Lemma suspended_app (w : nat) (l1 l2 : list Socket) :
  suspended w (l1 ++ l2) = (suspended w l1 + suspended w l2)%nat.
Proof. unfold suspended. now rewrite filter_app, length_app. Qed.

Lemma reject_conserve (w : nat) (s : string) (error : ClientError)
    (l : list Callback) :
  Forall well_owned l ->
  (calls w (snd (rejectCallbacks s error l))
   + registered w (fst (rejectCallbacks s error l)))%nat = registered w l.
Proof.
  rewrite rejectCallbacks_spec. simpl. unfold calls, registered.
  induction 1 as [|a l Ha Hl IH]; [reflexivity|].
  cbn [filter]. unfold other_stream at 1, same_stream at 1.
  destruct (String.eqb (cb_stream a) s); cbn [negb map filter].
  - rewrite count_cons. unfold is_call_of at 1, owned_by at 2.
    rewrite <- Ha.
    destruct (Nat.eqb (owner (cb_resolve a)) w); cbn [length]; lia.
  - destruct (owned_by w a); cbn [length]; lia.
Qed.

Lemma resolve_conserve (w : nat) (s : string) (data : SessionDescription)
    (l : list Callback) :
  (calls w (snd (resolveCallbacks s data l))
   + registered w (fst (resolveCallbacks s data l)))%nat = registered w l.
Proof.
  rewrite resolveCallbacks_spec. simpl. unfold calls, registered.
  induction l as [|a l IH]; [reflexivity|].
  cbn [filter]. unfold other_stream at 1, same_stream at 1.
  destruct (String.eqb (cb_stream a) s); cbn [negb map filter].
  - rewrite count_cons. unfold is_call_of at 1, owned_by at 2.
    destruct (Nat.eqb (owner (cb_resolve a)) w); cbn [length]; lia.
  - destruct (owned_by w a); cbn [length]; lia.
Qed.

Lemma well_owned_filter (p : Callback -> bool) (l : list Callback) :
  Forall well_owned l -> Forall well_owned (filter p l).
Proof.
  intros H. apply Forall_forall. intros x Hx. apply filter_In in Hx.
  rewrite Forall_forall in H. now apply H.
Qed.

Lemma step_well_owned (c : ChakraClient) (e : Event) :
  Forall well_owned (callbacks c) -> Forall well_owned (callbacks (step c e)).
Proof.
  intros H.
  destruct e; unfold_step; split_cases; trivial;
    rewrite ?rejectCallbacks_spec, ?resolveCallbacks_spec; cbn;
    try (apply Forall_app; split; [|now repeat constructor]);
    now apply well_owned_filter.
Qed.

Ltac pose_conserve w Hwf :=
  repeat match goal with
    | |- context [rejectCallbacks ?s ?e ?l] =>
        lazymatch goal with
        | _ : (calls w (snd (rejectCallbacks s e l)) + _)%nat = _ |- _ => fail
        | _ => pose proof (@reject_conserve w s e l Hwf)
        end
    | |- context [resolveCallbacks ?s ?d ?l] =>
        lazymatch goal with
        | _ : (calls w (snd (resolveCallbacks s d l)) + _)%nat = _ |- _ => fail
        | _ => pose proof (resolve_conserve w s d l)
        end
    end.

Lemma step_registry (w : nat) (c : ChakraClient) (e : Event) :
  Forall well_owned (callbacks c) ->
  (calls w (log (step c e)) + registered w (callbacks (step c e)))%nat =
  (calls w (log c) + registered w (callbacks c) + registry_gain w c e)%nat.
Proof.
  intros Hwf.
  destruct e; unfold registry_gain, suspends, resumable, awaits, indicator;
    unfold_step; split_cases; pose_conserve w Hwf; unfold calls in *;
    count_log; rewrite ?registered_app, ?registered_pending;
    tidy; cbn; lia.
Qed.

Lemma suspended_update (w : nat) (f : Socket -> Socket) (l : list Socket)
    (sid : nat) (s : Socket) :
  nth_error l sid = Some s ->
  (suspended w (update_socket sid f l) + indicator (suspends w s))%nat =
  (suspended w l + indicator (suspends w (f s)))%nat.
Proof.
  revert sid. induction l as [|a l IH]; intros sid Hs.
  - now destruct sid.
  - destruct sid as [|sid].
    + injection Hs as ->. rewrite update_socket_zero.
      unfold suspended, indicator. cbn [filter].
      destruct (suspends w s), (suspends w (f s)); cbn [length]; lia.
    + rewrite update_socket_cons. simpl in Hs. specialize (IH sid Hs).
      unfold suspended in *. cbn [filter].
      destruct (suspends w a); cbn [length]; lia.
Qed.

Lemma suspends_closed (w : nat) (s : Socket) :
  suspends w (mark_closed s) = suspends w s.
Proof. reflexivity. Qed.

Lemma suspends_opened (w : nat) (s : Socket) :
  suspends w (mark_opened s) = false.
Proof.
  unfold suspends, resumable. simpl. now rewrite andb_false_r.
Qed.

Lemma suspends_detached (w : nat) (s : Socket) :
  suspends w (detach_open s) = false.
Proof. reflexivity. Qed.

Lemma suspended_new (w : nat) (awaiter : option (nat * string)) :
  suspended w [new_socket awaiter] =
  match awaiter with
  | Some (w', _) => indicator (Nat.eqb w' w)
  | None => 0%nat
  end.
Proof.
  unfold suspended, suspends, resumable, awaits. simpl.
  destruct awaiter as [[w' name]|]; [|reflexivity].
  now destruct (Nat.eqb w' w).
Qed.

Lemma step_suspended (w : nat) (c : ChakraClient) (e : Event) :
  (suspended w (sockets (step c e)) + resumed w c e)%nat =
  (suspended w (sockets c) + suspended_gain w c e)%nat.
Proof.
  rewrite step_sockets.
  destruct e as [ctor|msg|name|name ctor|sid|sid m|sid err|sid code|n ctor
                 |event|event];
    unfold resumed, suspended_gain, built;
    try (split_cases; rewrite ?suspended_app, ?suspended_new; lia).
  - destruct (nth_error (sockets c) sid) as [s|] eqn:Hs; [|lia].
    destruct (open_listener s) eqn:Hl.
    + pose proof (suspended_update w mark_opened _ _ Hs) as H1.
      rewrite suspends_opened in H1. unfold indicator at 2 in H1.
      destruct (same_socket (socket c) sid); [|lia].
      assert (Hs' : nth_error (update_socket sid mark_opened (sockets c)) sid
                    = Some (mark_opened s))
        by (now rewrite nth_error_update_socket, Nat.eqb_refl, Hs).
      pose proof (suspended_update w detach_open _ _ Hs') as H2.
      rewrite suspends_detached, suspends_opened in H2.
      unfold indicator at 1 2 in H2. lia.
    + unfold suspends, resumable. rewrite Hl. simpl. lia.
  - destruct (nth_error (sockets c) sid) as [s|] eqn:Hs.
    + pose proof (suspended_update w mark_closed _ _ Hs) as H1.
      rewrite suspends_closed in H1. lia.
    + unfold update_socket. rewrite Hs. lia.
Qed.

Lemma step_lifetime (w : nat) (c : ChakraClient) (e : Event) :
  Forall well_owned (callbacks c) ->
  lifetime w (step c e) = (lifetime w c + started w c e)%nat.
Proof.
  intros Hwf. unfold lifetime.
  pose proof (step_registry w c e Hwf) as Hr.
  pose proof (step_suspended w c e) as Hs.
  assert (Hsum : (registry_gain w c e + suspended_gain w c e)%nat =
                 (resumed w c e + started w c e)%nat).
  { destruct e; unfold registry_gain, suspended_gain, resumed, started;
      try lia.
    destruct ctor, (connected c); lia. }
  lia.
Qed.

Lemma step_watches (c : ChakraClient) (e : Event) :
  watches (step c e) =
  match e with CallWatchStream _ _ => S (watches c) | _ => watches c end.
Proof. destruct e; unfold_step; split_cases; reflexivity. Qed.

Lemma pending_inv_init (o : Options) (w : bool) :
  pending_inv (new_client o w).
Proof. split; [constructor|]. intros n. cbv. split; lia. Qed.

Lemma pending_inv_step (c : ChakraClient) (e : Event) :
  pending_inv c -> pending_inv (step c e).
Proof.
  intros [Hwf Hinv]. split; [now apply step_well_owned|].
  intros w. destruct (Hinv w) as [Hle Hzero].
  rewrite step_lifetime, step_watches by exact Hwf.
  destruct e; unfold started, indicator; try (split; lia).
  destruct (Nat.eqb (watches c) w) eqn:E.
  - apply Nat.eqb_eq in E. split; [|lia].
    rewrite Hzero; lia.
  - apply Nat.eqb_neq in E. split; [lia|]. intros H. rewrite Hzero; lia.
Qed.

Lemma pending_inv_run (events : list Event) (c : ChakraClient) :
  pending_inv c -> pending_inv (run c events).
Proof.
  revert c. induction events as [|e events IH]; intros c Hinv; trivial.
  rewrite run_cons. apply IH. now apply pending_inv_step.
Qed.











(** ** Supersession in [watchStream] *)

Lemma same_stream_pending (name : string) (w : nat) :
  same_stream name (pending name w) = true.
Proof. unfold same_stream. simpl. apply String.eqb_refl. Qed.

Lemma other_stream_pending (name : string) (w : nat) :
  other_stream name (pending name w) = false.
Proof. unfold other_stream. simpl. now rewrite String.eqb_refl. Qed.

Lemma watchStream_connected (name : string) (ctor : Construction)
    (c : ChakraClient) :
  connected c = true ->
  watchStream name ctor c =
    add_log
      (map (fun cb => Call (cb_reject cb) (VError superseded))
         (filter (same_stream name) (callbacks c)))
      (set_callbacks
         (filter (other_stream name) (callbacks c) ++
            [pending name (watches c)])
         (set_watches (S (watches c)) c)).
Proof.
  intros Hconn. unfold watchStream. cbn. rewrite Hconn. cbn.
  unfold watchStream_register. rewrite this_rejectCallbacks_spec.
  reflexivity.
Qed.

Lemma response_only (w : nat) (c : ChakraClient) (message : Message) :
  filter (same_stream (msg_stream message)) (callbacks c)
    = [pending (msg_stream message) w] ->
  msg_status message = 200 \/ error_listeners c <> 0%nat ->
  log (on_message message c) = log c ++ response_effects w message.
Proof.
  intros Hsame Hheard. unfold on_message, response_effects.
  destruct (msg_status message =? 200) eqn:Hstatus.
  - rewrite this_resolveCallbacks_spec.
    destruct (String.eqb (msg_action message) ACTION_CONNECT); cbn;
      rewrite Hsame; cbn; now rewrite <- ?app_assoc.
  - apply Z.eqb_neq in Hstatus.
    destruct Hheard as [Hok|Hheard]; [contradiction|].
    rewrite emit_heard by assumption. unfold emit.
    rewrite emit_heard by assumption.
    rewrite this_rejectCallbacks_spec. cbn. rewrite Hsame. cbn.
    now rewrite <- app_assoc.
Qed.

Lemma step_error_listeners (c : ChakraClient) (e : Event) :
  error_listeners (step c e) =
  match e with
  | CallOn event => error_listeners (addListener event c)
  | CallOff event => error_listeners (removeListener event c)
  | _ => error_listeners c
  end.
Proof. destruct e; unfold_step; split_cases; reflexivity. Qed.

Lemma watchStream_error_listeners (name : string) (ctor : Construction)
    (c : ChakraClient) :
  error_listeners (watchStream name ctor c) = error_listeners c.
Proof. apply (step_error_listeners c (CallWatchStream name ctor)). Qed.

Lemma registered_last (name : string) (w : nat) (l : list Callback) :
  filter (same_stream name)
    (filter (other_stream name) l ++ [pending name w]) = [pending name w]
  /\ filter (other_stream name)
       (filter (other_stream name) l ++ [pending name w])
     = filter (other_stream name) l.
Proof.
  rewrite !filter_app, filter_same_other, filter_other_other.
  cbn [filter app]. rewrite same_stream_pending, other_stream_pending.
  split; [reflexivity | apply app_nil_r].
Qed.

(** The Open of a socket a call of [watchStream] waits for: [connect]
    resumes, then [watchStream] rejects the callbacks of its name and
    registers its own. *)
Lemma open_resumes (c : ChakraClient) (sid : nat) (s : Socket) (w : nat)
    (name : string) :
  nth_error (sockets c) sid = Some s ->
  open_listener s = true -> opened s = false ->
  awaiting s = Some (w, name) ->
  callbacks (step c (SockOpen sid))
    = filter (other_stream name) (callbacks c) ++ [pending name w]
  /\ log (step c (SockOpen sid))
     = log c ++ [Emit "connect" VNone; ConnectResolved sid] ++
       map (fun cb => Call (cb_reject cb) (VError superseded))
         (filter (same_stream name) (callbacks c)).
Proof.
  intros Hs Hl Ho Ha. unfold step. rewrite Hs.
  unfold on_open. rewrite Hl, Ho. unfold connect_resume. rewrite Ha.
  unfold watchStream_register. rewrite this_rejectCallbacks_spec.
  destruct (same_socket _ sid); cbn; split; trivial;
    now rewrite <- !app_assoc.
Qed.

Lemma watchStream_connecting (name : string) (c : ChakraClient) :
  connected c = false ->
  watchStream name Constructs c =
    add_log [NewWebSocket (length (sockets c)) (wsUrl c)
               (if window c then None else Some (bearer c))]
      (set_sockets (sockets c ++ [new_socket (Some (watches c, name))])
         (set_socket (Some (length (sockets c)))
            (set_watches (S (watches c)) c))).
Proof. intros Hconn. unfold watchStream. cbn. now rewrite Hconn. Qed.

Lemma nth_error_last (A : Type) (l : list A) (x : A) :
  nth_error (l ++ [x]) (length l) = Some x.
Proof.
  rewrite nth_error_app2 by lia. now rewrite Nat.sub_diag.
Qed.

Lemma supersession_connected (c : ChakraClient) (name : string)
    (ctor1 ctor2 : Construction) :
  connected c = true ->
  let w1 := watches c in
  let w2 := S (watches c) in
  let c1 := watchStream name ctor1 c in
  let c2 := watchStream name ctor2 c1 in
  let rejected :=
    this_rejectCallbacks name superseded (set_watches (S (watches c1)) c1) in
  callbacks c1 = filter (other_stream name) (callbacks c) ++ [pending name w1]
  /\ (log rejected = log c1 ++ [Call (PromiseReject w1) (VError superseded)]
      /\ filter (same_stream name) (callbacks rejected) = []
      /\ c2 = set_callbacks (callbacks rejected ++ [pending name w2]) rejected)
  /\ (forall message,
        msg_stream message = name ->
        msg_status message = 200 \/ error_listeners c <> 0%nat ->
        log (on_message message c2) = log c2 ++ response_effects w2 message).
Proof.
  intros Hconn w1 w2 c1 c2 rejected.
  assert (Hc1 : c1 = add_log
      (map (fun cb => Call (cb_reject cb) (VError superseded))
         (filter (same_stream name) (callbacks c)))
      (set_callbacks
         (filter (other_stream name) (callbacks c) ++ [pending name w1])
         (set_watches (S (watches c)) c)))
    by (apply watchStream_connected; assumption).
  assert (Hcb1 : callbacks c1 =
            filter (other_stream name) (callbacks c) ++ [pending name w1])
    by (rewrite Hc1; reflexivity).
  destruct (registered_last name w1 (callbacks c)) as [Hsame1 Hother1].
  rewrite <- Hcb1 in Hsame1, Hother1.
  assert (Hconn1 : connected c1 = true) by (rewrite Hc1; exact Hconn).
  assert (Hw1 : watches c1 = w2) by (rewrite Hc1; reflexivity).
  assert (Hrej : rejected = add_log
      [Call (PromiseReject w1) (VError superseded)]
      (set_callbacks (filter (other_stream name) (callbacks c))
         (set_watches (S (watches c1)) c1))).
  { unfold rejected. rewrite this_rejectCallbacks_spec. cbn.
    now rewrite Hsame1, Hother1. }
  assert (Hc2 : c2 = set_callbacks (callbacks rejected ++ [pending name w2])
                       rejected).
  { unfold c2. unfold watchStream. cbn. rewrite Hconn1. cbn.
    unfold watchStream_register. fold rejected. now rewrite Hw1. }
  split; [exact Hcb1|]. split.
  { split; [rewrite Hrej; reflexivity|].
    split; [|exact Hc2].
    rewrite Hrej. cbn. apply filter_same_other. }
  intros message Hstream Hheard. apply response_only.
  - rewrite Hstream, Hc2, Hrej. cbn.
    apply (registered_last name w2 (callbacks c)).
  - unfold c2, c1. now rewrite !watchStream_error_listeners.
Qed.

Lemma supersession_connecting (c : ChakraClient) (name : string) :
  connected c = false ->
  let w1 := watches c in
  let w2 := S (watches c) in
  let s1 := length (sockets c) in
  let s2 := S (length (sockets c)) in
  let c2 := watchStream name Constructs (watchStream name Constructs c) in
  let o1 := step c2 (SockOpen s1) in
  let o2 := step o1 (SockOpen s2) in
  (callbacks c2 = callbacks c
   /\ callbacks o1
      = filter (other_stream name) (callbacks c) ++ [pending name w1])
  /\ (log o2 = log o1 ++ [Emit "connect" VNone; ConnectResolved s2;
                           Call (PromiseReject w1) (VError superseded)]
      /\ callbacks o2
         = filter (other_stream name) (callbacks c) ++ [pending name w2])
  /\ (forall message,
        msg_stream message = name ->
        msg_status message = 200 \/ error_listeners c <> 0%nat ->
        log (on_message message o2) = log o2 ++ response_effects w2 message).
Proof.
  intros Hconn w1 w2 s1 s2 c2 o1 o2.
  pose proof (watchStream_connecting name c Hconn) as Hc1.
  assert (Hconn1 : connected (watchStream name Constructs c) = false)
    by (rewrite Hc1; exact Hconn).
  pose proof (watchStream_connecting name _ Hconn1) as Hc2. fold c2 in Hc2.
  rewrite Hc1 in Hc2. cbn in Hc2.
  assert (Hlen : length (sockets c ++ [new_socket (Some (watches c, name))])
                 = S (length (sockets c)))
    by (rewrite length_app; simpl; lia).
  rewrite Hlen in Hc2.
  assert (Hcb2 : callbacks c2 = callbacks c) by (rewrite Hc2; reflexivity).
  assert (Hsk : sockets c2 =
                (sockets c ++ [new_socket (Some (watches c, name))]) ++
                [new_socket (Some (S (watches c), name))])
    by (rewrite Hc2; reflexivity).
  assert (Hs1 : nth_error (sockets c2) s1
                = Some (new_socket (Some (w1, name)))).
  { unfold s1. rewrite Hsk, nth_error_app1 by (rewrite Hlen; lia).
    apply nth_error_last. }
  assert (Hs2 : nth_error (sockets c2) s2
                = Some (new_socket (Some (w2, name)))).
  { unfold s2. rewrite Hsk, <- Hlen. apply nth_error_last. }
  destruct (@open_resumes c2 s1 _ w1 name Hs1 eq_refl eq_refl eq_refl)
    as [Hcb_o1 Hlog_o1].
  fold o1 in Hcb_o1, Hlog_o1. rewrite Hcb2 in Hcb_o1.
  assert (Hs2' : nth_error (sockets o1) s2
                 = Some (new_socket (Some (w2, name)))).
  { unfold o1. rewrite (step_socket_old c2 (SockOpen s1) _ Hs2).
    unfold socket_after.
    assert (E : Nat.eqb s2 s1 = false)
      by (apply Nat.eqb_neq; unfold s1, s2; lia).
    now rewrite E. }
  destruct (@open_resumes o1 s2 _ w2 name Hs2' eq_refl eq_refl eq_refl)
    as [Hcb_o2 Hlog_o2].
  fold o2 in Hcb_o2, Hlog_o2.
  destruct (registered_last name w1 (callbacks c)) as [Hsame1 Hother1].
  rewrite <- Hcb_o1 in Hsame1, Hother1.
  rewrite Hsame1 in Hlog_o2. rewrite Hother1 in Hcb_o2.
  split; [split; assumption|]. split; [split; assumption|].
  intros message Hstream Hheard. apply response_only.
  - rewrite Hstream, Hcb_o2. apply (registered_last name w2 (callbacks c)).
  - unfold o2, o1, c2.
    now rewrite !step_error_listeners, !watchStream_error_listeners.
Qed.

(** C6 (as the code has it).  Two calls of [watchStream] for the same name,
    one right after the other.  On a connected client the first call
    registers its pending call; the second one first rejects it with the
    error "Request was cancelled because a new one was made", at which
    point the registry holds no entry of that name, and only then registers
    its own.  On a client that is not connected each call builds a socket
    and waits for it; when these sockets then open in the order of the
    calls, the first call registers at the first Open and the second call
    rejects it with the same error and registers at the second Open.  In
    both cases the inbound message for that name that comes next calls the
    handlers of the second call only, when its status is 200 or a listener
    is attached to "error". *)
Theorem supersession (c : ChakraClient) (name : string) :
  let w1 := watches c in
  let w2 := S (watches c) in
  (connected c = true ->
   forall ctor1 ctor2,
     let c1 := watchStream name ctor1 c in
     let c2 := watchStream name ctor2 c1 in
     let rejected :=
       this_rejectCallbacks name superseded
         (set_watches (S (watches c1)) c1) in
     callbacks c1
       = filter (other_stream name) (callbacks c) ++ [pending name w1]
     /\ (log rejected
           = log c1 ++ [Call (PromiseReject w1) (VError superseded)]
         /\ filter (same_stream name) (callbacks rejected) = []
         /\ c2 = set_callbacks (callbacks rejected ++ [pending name w2])
                   rejected)
     /\ (forall message,
           msg_stream message = name ->
           msg_status message = 200 \/ error_listeners c <> 0%nat ->
           log (on_message message c2)
             = log c2 ++ response_effects w2 message))
  /\ (connected c = false ->
      let s1 := length (sockets c) in
      let s2 := S (length (sockets c)) in
      let c2 := watchStream name Constructs (watchStream name Constructs c) in
      let o1 := step c2 (SockOpen s1) in
      let o2 := step o1 (SockOpen s2) in
      (callbacks c2 = callbacks c
       /\ callbacks o1
          = filter (other_stream name) (callbacks c) ++ [pending name w1])
      /\ (log o2 = log o1 ++ [Emit "connect" VNone; ConnectResolved s2;
                               Call (PromiseReject w1) (VError superseded)]
          /\ callbacks o2
             = filter (other_stream name) (callbacks c) ++ [pending name w2])
      /\ (forall message,
            msg_stream message = name ->
            msg_status message = 200 \/ error_listeners c <> 0%nat ->
            log (on_message message o2)
              = log o2 ++ response_effects w2 message)).
Proof.
  split.
  - intros Hconn ctor1 ctor2. now apply supersession_connected.
  - intros Hconn. now apply supersession_connecting.
Qed.

Example supersession_witness :
  (connected client_s1 = true /\
   filter is_call
     (log (on_message (inbound "Connect" 200 "A")
             (watchStream "A" Constructs
                (watchStream "A" Constructs client_s1))))
   = [Call (PromiseReject 2) (VError superseded);
      Call (OnStream 3) (VData sd0)])
  /\ (connected (new_client DEFAULT_OPTS true) = false /\
      log (on_message (inbound "Connect" 200 "A") connecting_pair)
      = log connecting_pair ++
        [Emit "stream-data" (VMessage (inbound "Connect" 200 "A"));
         Call (OnStream 1) (VData sd0)]).
Proof.
  split; (split; [reflexivity|]).
  - pose proof (proj2 (proj2 (proj1 (supersession client_s1 "A") eq_refl
                                Constructs Constructs))
                  (inbound "Connect" 200 "A") eq_refl (or_introl eq_refl))
      as Hlog.
    apply (f_equal (filter is_call)) in Hlog.
    vm_compute in Hlog. vm_compute. exact Hlog.
  - exact (proj2 (proj2 (proj2 (supersession
                                  (new_client DEFAULT_OPTS true) "A")
                           eq_refl))
             (inbound "Connect" 200 "A") eq_refl (or_introl eq_refl)).
Defined.

(** The handlers that were called on [connecting_pair] and by the message
    that follows: the first call is rejected, the second one resolved. *)
Example supersession_in_order :
  filter is_call (log (on_message (inbound "Connect" 200 "A")
                         connecting_pair))
  = [Call (PromiseReject 0) (VError superseded);
     Call (OnStream 1) (VData sd0)].
Proof. vm_compute. reflexivity. Qed.

(** C6, the claim as stated fails on a client that is not connected: each
    of the two calls builds its own socket and registers when that socket
    opens.  When the socket of the second call opens first, it is the second
    call whose failure handler gets the supersession error, and the first
    call whose handler gets the response.  On a connected client without a
    listener of "error", a response with status 404 reaches no handler: the
    supersession error of the first call is the only call of a handler. *)
Example supersession_reversed :
  filter is_call
    (log (run (new_client DEFAULT_OPTS true)
            [CallWatchStream "A" Constructs; CallWatchStream "A" Constructs;
             SockOpen 1; SockOpen 0;
             SockMessage 0 (inbound "Connect" 200 "A")]))
  = [Call (PromiseReject 1) (VError superseded);
     Call (OnStream 0) (VData sd0)]
  /\ filter is_call
       (log (run (new_client DEFAULT_OPTS true)
               [CallConnect Constructs; SockOpen 0;
                CallWatchStream "A" Constructs; CallWatchStream "A" Constructs;
                SockMessage 0 (inbound "Connect" 404 "A")]))
     = [Call (PromiseReject 0) (VError superseded)].
Proof. vm_compute. split; reflexivity. Qed.


(** ** Further properties: the dispatcher and the streams *)

Lemma on_message_log (message : Message) (c : ChakraClient) :
  log (on_message message c) = log c ++ dispatched message c
  /\ callbacks (on_message message c)
     = (if negb (msg_status message =? 200) && emit_throws "error" c
        then callbacks c
        else filter (other_stream (msg_stream message)) (callbacks c))
  /\ error_listeners (on_message message c) = error_listeners c.
Proof.
  unfold on_message, dispatched.
  destruct (msg_status message =? 200).
  - rewrite this_resolveCallbacks_spec.
    destruct (String.eqb (msg_action message) ACTION_CONNECT); cbn;
      repeat split; trivial; now rewrite <- ?app_assoc.
  - cbn [negb andb]. unfold emit.
    destruct (emit_throws "error" c); [repeat split; reflexivity|].
    rewrite this_rejectCallbacks_spec. cbn. repeat split; trivial.
    now rewrite <- app_assoc.
Qed.

Lemma filter_same_of_other (s1 s2 : string) (l : list Callback) :
  s1 <> s2 ->
  filter (same_stream s2) (filter (other_stream s1) l)
    = filter (same_stream s2) l.
Proof.
  intros Hne. induction l as [|a l IH]; [reflexivity|].
  cbn [filter]. unfold other_stream at 1.
  destruct (String.eqb (cb_stream a) s1) eqn:E1; cbn [negb filter].
  - apply String.eqb_eq in E1. unfold same_stream at 2.
    assert (E2 : String.eqb (cb_stream a) s2 = false)
      by (apply String.eqb_neq; congruence).
    now rewrite E2.
  - destruct (same_stream s2 a); now rewrite IH.
Qed.

Lemma filter_other_comm (s1 s2 : string) (l : list Callback) :
  filter (other_stream s2) (filter (other_stream s1) l)
    = filter (other_stream s1) (filter (other_stream s2) l).
Proof.
  induction l as [|a l IH]; [reflexivity|].
  cbn [filter].
  destruct (other_stream s1 a) eqn:E1, (other_stream s2 a) eqn:E2;
    cbn [filter]; rewrite ?E1, ?E2, IH; reflexivity.
Qed.

Lemma on_message_throws (m1 : Message) (c : ChakraClient) :
  emit_throws "error" (on_message m1 c) = emit_throws "error" c.
Proof.
  rewrite !emit_throws_error.
  now rewrite (proj2 (proj2 (on_message_log m1 c))).
Qed.

Lemma on_message_same (m1 : Message) (s : string) (c : ChakraClient) :
  msg_stream m1 <> s ->
  filter (same_stream s) (callbacks (on_message m1 c))
    = filter (same_stream s) (callbacks c).
Proof.
  intros Hne. rewrite (proj1 (proj2 (on_message_log m1 c))).
  destruct (negb (msg_status m1 =? 200) && emit_throws "error" c);
    [reflexivity|].
  now apply filter_same_of_other.
Qed.

(** X1.  Streams are isolated from each other in the dispatcher: for two
    inbound messages of different streams, what the second one does (the
    notification and the calls of handlers) is the same whether or not the
    first one was dispatched before it, and the registry after both is the
    same in either order. *)
Theorem streams_isolated (m1 m2 : Message) (c : ChakraClient) :
  msg_stream m1 <> msg_stream m2 ->
  log (on_message m2 (on_message m1 c))
    = log (on_message m1 c) ++ dispatched m2 c
  /\ log (on_message m2 c) = log c ++ dispatched m2 c
  /\ callbacks (on_message m2 (on_message m1 c))
     = callbacks (on_message m1 (on_message m2 c)).
Proof.
  intros Hne.
  destruct (on_message_log m1 c) as [Hl1 [Hc1 _]].
  destruct (on_message_log m2 c) as [Hl2 [Hc2 _]].
  destruct (on_message_log m2 (on_message m1 c)) as [Hl21 [Hc21 _]].
  destruct (on_message_log m1 (on_message m2 c)) as [Hl12 [Hc12 _]].
  split; [|split; [exact Hl2|]].
  - rewrite Hl21. f_equal. unfold dispatched.
    rewrite (@on_message_throws m1 c).
    now rewrite (@on_message_same m1 (msg_stream m2) c Hne).
  - rewrite Hc21, Hc12, (@on_message_throws m1 c),
      (@on_message_throws m2 c), Hc1, Hc2.
    destruct (negb (msg_status m1 =? 200) && emit_throws "error" c),
      (negb (msg_status m2 =? 200) && emit_throws "error" c);
      trivial.
    apply filter_other_comm.
Qed.

Example streams_isolated_witness :
  msg_stream (inbound "Connect" 404 "s1")
    <> msg_stream (inbound "Connect" 200 "s3") /\
  log (on_message (inbound "Connect" 200 "s3")
         (on_message (inbound "Connect" 404 "s1") client_s1))
  = log (on_message (inbound "Connect" 404 "s1") client_s1)
      ++ dispatched (inbound "Connect" 200 "s3") client_s1.
Proof.
  assert (Hne : msg_stream (inbound "Connect" 404 "s1")
                <> msg_stream (inbound "Connect" 200 "s3"))
    by discriminate.
  split; [exact Hne|].
  exact (proj1 (@streams_isolated _ _ client_s1 Hne)).
Defined.

(** ** Further properties: one pending call per stream *)

Lemma NoDup_map_filter (p : Callback -> bool) (l : list Callback) :
  NoDup (map cb_stream l) -> NoDup (map cb_stream (filter p l)).
Proof.
  induction l as [|a l IH]; intros H; [constructor|].
  simpl in H. inversion H as [|x xs Hnotin Hnodup]; subst.
  cbn [filter]. destruct (p a); [|now apply IH].
  simpl. constructor; [|now apply IH].
  intros Hin. apply Hnotin. apply in_map_iff in Hin.
  destruct Hin as [cb [Hs Hcb]]. apply filter_In in Hcb.
  apply in_map_iff. exists cb. now split.
Qed.

Lemma NoDup_register (name : string) (w : nat) (l : list Callback) :
  NoDup (map cb_stream l) ->
  NoDup (map cb_stream
           (filter (other_stream name) l ++
              [{| cb_stream := name; cb_resolve := OnStream w;
                  cb_reject := PromiseReject w |}])).
Proof.
  intros H. rewrite map_app. simpl.
  apply NoDup_app.
  - now apply NoDup_map_filter.
  - repeat constructor. intros [].
  - intros s Hin [Heq|[]]. subst s.
    apply in_map_iff in Hin. destruct Hin as [cb [Hs Hcb]].
    apply filter_In in Hcb. destruct Hcb as [_ Hother].
    unfold other_stream in Hother. rewrite Hs, String.eqb_refl in Hother.
    discriminate.
Qed.

Lemma step_one_per_stream (c : ChakraClient) (e : Event) :
  NoDup (map cb_stream (callbacks c)) ->
  NoDup (map cb_stream (callbacks (step c e))).
Proof.
  intros H.
  destruct e; unfold_step; split_cases; trivial;
    rewrite ?rejectCallbacks_spec, ?resolveCallbacks_spec; cbn [fst];
    first [ now apply NoDup_register | now apply NoDup_map_filter ].
Qed.

Lemma run_one_per_stream (events : list Event) (c : ChakraClient) :
  NoDup (map cb_stream (callbacks c)) ->
  NoDup (map cb_stream (callbacks (run c events))).
Proof.
  revert c. induction events as [|e events IH]; intros c H; trivial.
  rewrite run_cons. apply IH. now apply step_one_per_stream.
Qed.

Lemma NoDup_same_stream (s : string) (l : list Callback) :
  NoDup (map cb_stream l) -> (length (filter (same_stream s) l) <= 1)%nat.
Proof.
  induction l as [|a l IH]; intros H; [simpl; lia|].
  simpl in H. inversion H as [|x xs Hnotin Hnodup]; subst.
  cbn [filter]. unfold same_stream at 1.
  destruct (String.eqb (cb_stream a) s) eqn:E; [|now apply IH].
  apply String.eqb_eq in E.
  destruct (filter (same_stream s) l) as [|b rest] eqn:F; [simpl; lia|].
  exfalso. apply Hnotin.
  assert (Hb : In b (filter (same_stream s) l)) by (rewrite F; now left).
  apply filter_In in Hb. destruct Hb as [Hb Hsame].
  unfold same_stream in Hsame. apply String.eqb_eq in Hsame.
  apply in_map_iff. exists b. split; [congruence|exact Hb].
Qed.

(** X2.  In every state the client reaches, the registry holds at most one
    pending call per stream name, so the dispatch of one inbound message
    calls at most one handler. *)
Theorem one_pending_call_per_stream (o : Options) (w : bool)
    (events : list Event) :
  let c := run (new_client o w) events in
  NoDup (map cb_stream (callbacks c))
  /\ forall message,
       (count is_call (log (on_message message c))
        <= count is_call (log c) + 1)%nat.
Proof.
  intros c.
  assert (H : NoDup (map cb_stream (callbacks c)))
    by (apply run_one_per_stream; constructor).
  split; [exact H|].
  intros message.
  pose proof (@NoDup_same_stream (msg_stream message) (callbacks c) H)
    as Hle.
  destruct (on_message_log message c) as [-> _]. rewrite count_app.
  apply Nat.add_le_mono_l.
  unfold dispatched.
  destruct (msg_status message =? 200);
    [|destruct (emit_throws "error" c); [cbv; lia|]].
  - rewrite count_app.
    assert (Hz : count is_call
                   (if String.eqb (msg_action message) ACTION_CONNECT
                    then [Emit "stream-data" (VMessage message)] else [])
                 = 0%nat)
      by (now destruct (String.eqb _ _)).
    rewrite Hz. unfold count.
    pose proof (filter_length_le is_call
      (map (fun cb => Call (cb_resolve cb) (VData (msg_data message)))
         (filter (same_stream (msg_stream message)) (callbacks c)))) as Hf.
    rewrite length_map in Hf. simpl. lia.
  - rewrite count_cons. cbn [is_call]. unfold count.
    pose proof (filter_length_le is_call
      (map (fun cb => Call (cb_reject cb)
                        (VError (status_error message)))
         (filter (same_stream (msg_stream message)) (callbacks c)))) as Hf.
    rewrite length_map in Hf. simpl. lia.
Qed.

(** ** Further properties: what handlers and listeners are given *)

Definition log_inv (c : ChakraClient) : Prop :=
  Forall from_watchStream (callbacks c) /\ Forall effect_ok (log c).

Lemma from_watchStream_filter (p : Callback -> bool) (l : list Callback) :
  Forall from_watchStream l -> Forall from_watchStream (filter p l).
Proof.
  intros H. apply Forall_forall. intros x Hx. apply filter_In in Hx.
  rewrite Forall_forall in H. now apply H.
Qed.

Lemma reject_effects_ok (error : ClientError) (l : list Callback) :
  Forall from_watchStream l ->
  (error = superseded
   \/ exists message,
        msg_status message <> 200 /\ error = status_error message) ->
  Forall effect_ok (map (fun cb => Call (cb_reject cb) (VError error)) l).
Proof.
  intros Hl Herr. induction Hl as [|cb l [w [_ Hrej]] _ IH]; [constructor|].
  simpl. constructor; [|exact IH].
  rewrite Hrej. simpl. destruct Herr as [->|[message [Hs ->]]].
  - now left.
  - right. left. now exists message.
Qed.

Lemma resolve_effects_ok (data : SessionDescription) (l : list Callback) :
  Forall from_watchStream l ->
  Forall effect_ok (map (fun cb => Call (cb_resolve cb) (VData data)) l).
Proof.
  intros Hl. induction Hl as [|cb l [w [Hres _]] _ IH]; [constructor|].
  simpl. constructor; [|exact IH].
  rewrite Hres. simpl. now exists data.
Qed.

Ltac effect_leaf :=
  repeat match goal with
    | H : (_ =? _) = false |- _ => apply Z.eqb_neq in H
    | H : (_ =? _) = true |- _ => apply Z.eqb_eq in H
    | H : String.eqb _ _ = true |- _ => apply String.eqb_eq in H
    end;
  simpl; eauto 12.

Lemma step_log_inv (c : ChakraClient) (e : Event) :
  log_inv c -> log_inv (step c e).
Proof.
  intros [Hcb Hlog]. unfold log_inv.
  destruct e; unfold_step; split_cases;
    rewrite ?rejectCallbacks_spec, ?resolveCallbacks_spec; cbn;
    (split;
     [ try assumption;
       try (apply Forall_app; split;
            [|apply Forall_cons; [eexists; split; reflexivity
                                 |apply Forall_nil]]);
       now apply from_watchStream_filter
     | repeat (apply Forall_app; split); try assumption;
       try (apply reject_effects_ok;
            [now apply from_watchStream_filter | effect_leaf]);
       try (apply resolve_effects_ok; now apply from_watchStream_filter);
       repeat (apply Forall_cons || apply Forall_nil); effect_leaf ]).
Qed.

Lemma run_log_inv (events : list Event) (c : ChakraClient) :
  log_inv c -> log_inv (run c events).
Proof.
  revert c. induction events as [|e events IH]; intros c H; trivial.
  rewrite run_cons. apply IH. now apply step_log_inv.
Qed.

(** X3.  In every run of the client, a resolve handler is only ever called
    with the payload of a message, and a reject handler only with the
    supersession error, with the error of a message whose status is not 200
    (carrying that message), or with what the socket constructor threw. *)
Theorem handlers_arguments (o : Options) (w : bool) (events : list Event)
    (h : Handler) (v : Value) :
  In (Call h v) (log (run (new_client o w) events)) ->
  match h with
  | OnStream _ => exists data, v = VData data
  | PromiseReject _ =>
      v = VError superseded
      \/ (exists message,
            msg_status message <> 200 /\ v = VError (status_error message))
      \/ (exists x, v = VThrown x)
  end.
Proof.
  intros Hin.
  assert (Hinv : log_inv (run (new_client o w) events))
    by (apply run_log_inv; split; constructor).
  destruct Hinv as [_ Hlog]. rewrite Forall_forall in Hlog.
  exact (Hlog _ Hin).
Qed.

(** X4.  In every run of the client, the emitter is only given "connect"
    without argument, "close" and "error" with the event of a socket,
    "error" with the error of a message whose status is not 200, and
    "stream-data" with a message whose status is 200 and whose action is
    "Connect". *)
Theorem notifications (o : Options) (w : bool) (events : list Event)
    (event : string) (v : Value) :
  In (Emit event v) (log (run (new_client o w) events)) ->
  (event = "connect" /\ v = VNone)
  \/ (event = "close" /\ exists x, v = VSocketEvent x)
  \/ (event = "error" /\
      ((exists x, v = VSocketEvent x)
       \/ exists message,
            msg_status message <> 200 /\ v = VError (status_error message)))
  \/ (event = "stream-data" /\
      exists message,
        v = VMessage message /\ msg_status message = 200
        /\ msg_action message = ACTION_CONNECT).
Proof.
  intros Hin.
  assert (Hinv : log_inv (run (new_client o w) events))
    by (apply run_log_inv; split; constructor).
  destruct Hinv as [_ Hlog]. rewrite Forall_forall in Hlog.
  exact (Hlog _ Hin).
Qed.

Example handlers_arguments_witness :
  In (Call (OnStream 0) (VData sd0))
    (log (run (new_client DEFAULT_OPTS true)
            [CallWatchStream "A" Constructs; SockOpen 0;
             SockMessage 0 (inbound "Connect" 200 "A")])) /\
  exists data, VData sd0 = VData data.
Proof.
  assert (Hin : In (Call (OnStream 0) (VData sd0))
                  (log (run (new_client DEFAULT_OPTS true)
                          [CallWatchStream "A" Constructs; SockOpen 0;
                           SockMessage 0 (inbound "Connect" 200 "A")])))
    by (vm_compute; auto 10).
  split; [exact Hin|].
  exact (@handlers_arguments DEFAULT_OPTS true _ (OnStream 0) (VData sd0)
           Hin).
Defined.

Example notifications_witness :
  In (Emit "connect" VNone)
    (log (run (new_client DEFAULT_OPTS true)
            [CallConnect Constructs; SockOpen 0])) /\
  (("connect" = "connect" /\ VNone = VNone)
   \/ ("connect" = "close" /\ exists x, VNone = VSocketEvent x)
   \/ ("connect" = "error" /\
       ((exists x, VNone = VSocketEvent x)
        \/ exists message,
             msg_status message <> 200
             /\ VNone = VError (status_error message)))
   \/ ("connect" = "stream-data" /\
       exists message,
         VNone = VMessage message /\ msg_status message = 200
         /\ msg_action message = ACTION_CONNECT)).
Proof.
  assert (Hin : In (Emit "connect" VNone)
                  (log (run (new_client DEFAULT_OPTS true)
                          [CallConnect Constructs; SockOpen 0])))
    by (vm_compute; auto 10).
  split; [exact Hin|].
  exact (@notifications DEFAULT_OPTS true _ "connect" VNone Hin).
Defined.

(** ** Further properties: the sockets the client builds *)

Lemma built_length (c : ChakraClient) (e : Event) :
  length (sockets (step c e)) =
  (length (sockets c) + match built c e with Some _ => 1 | None => 0 end)%nat.
Proof.
  rewrite step_sockets.
  destruct e; try (destruct (built c _); rewrite ?length_app; simpl; lia).
  - simpl. destruct (nth_error (sockets c) sid) as [s|]; [|lia].
    destruct (open_listener s); [|lia].
    destruct (same_socket (socket c) sid);
      rewrite ?update_socket_length; lia.
  - simpl. rewrite update_socket_length. lia.
Qed.

Lemma step_socket_field (c : ChakraClient) (e : Event) :
  socket (step c e) =
  match built c e with
  | Some _ => Some (length (sockets c))
  | None => socket c
  end.
Proof.
  destruct e; unfold built; unfold_step; split_cases; tidy; reflexivity.
Qed.

Lemma step_last_socket (c : ChakraClient) (e : Event) :
  socket c = last_socket c -> socket (step c e) = last_socket (step c e).
Proof.
  intros H. unfold last_socket in *.
  rewrite step_socket_field, built_length.
  destruct (built c e).
  - now rewrite Nat.add_1_r.
  - now rewrite Nat.add_0_r.
Qed.

Lemma run_last_socket (events : list Event) (c : ChakraClient) :
  socket c = last_socket c ->
  socket (run c events) = last_socket (run c events).
Proof.
  revert c. induction events as [|e events IH]; intros c H; trivial.
  rewrite run_cons. apply IH. now apply step_last_socket.
Qed.

(** X5.  In every state the client reaches, [this.socket] is the socket
    built last, whether that socket is open, connecting or closed, and
    whatever other socket is open.  So [send] writes to the socket built
    last, and throws (a [TypeError]) exactly when no socket was built
    yet. *)
Theorem send_target (o : Options) (w : bool) (events : list Event)
    (msg : OutgoingMessage) :
  let c := run (new_client o w) events in
  socket c = last_socket c
  /\ log (send msg c) =
     log c ++ [match length (sockets c) with
               | O => Throw "TypeError"
               | S n => SocketSend n msg
               end]
  /\ callbacks (send msg c) = callbacks c
  /\ sockets (send msg c) = sockets c.
Proof.
  intros c.
  assert (H : socket c = last_socket c)
    by (apply run_last_socket; reflexivity).
  split; [exact H|]. unfold send. rewrite H. unfold last_socket.
  destruct (length (sockets c)); repeat split.
Qed.

Lemma filter_reject_none (p : Effect -> bool) (s : string)
    (error : ClientError) (l : list Callback) :
  (forall h v, p (Call h v) = false) ->
  filter p (snd (rejectCallbacks s error l)) = [].
Proof.
  intros Hp. rewrite rejectCallbacks_spec. simpl.
  induction (filter (same_stream s) l) as [|a l' IH]; [reflexivity|].
  simpl. now rewrite Hp.
Qed.

Lemma filter_resolve_none (p : Effect -> bool) (s : string)
    (data : SessionDescription) (l : list Callback) :
  (forall h v, p (Call h v) = false) ->
  filter p (snd (resolveCallbacks s data l)) = [].
Proof.
  intros Hp. rewrite resolveCallbacks_spec. simpl.
  induction (filter (same_stream s) l) as [|a l' IH]; [reflexivity|].
  simpl. now rewrite Hp.
Qed.

Lemma step_window (c : ChakraClient) (e : Event) :
  window (step c e) = window c.
Proof. destruct e; unfold_step; split_cases; reflexivity. Qed.

Lemma wsUrl_opts (c c' : ChakraClient) : opts c = opts c' -> wsUrl c = wsUrl c'.
Proof.
  intros H. unfold wsUrl, hostname, path_or_root. now rewrite H.
Qed.

Lemma bearer_opts (c c' : ChakraClient) :
  opts c = opts c' -> bearer c = bearer c'.
Proof. intros H. unfold bearer. now rewrite H. Qed.

Lemma step_new_sockets (c : ChakraClient) (e : Event) :
  filter is_new_socket (log (step c e)) =
  filter is_new_socket (log c) ++
  match built c e with
  | Some _ =>
      [NewWebSocket (length (sockets c)) (wsUrl c)
         (if window c then None else Some (bearer c))]
  | None => []
  end.
Proof.
  destruct e; unfold built; unfold_step; split_cases; unfold add_log; cbn;
    rewrite ?filter_app;
    rewrite ?filter_reject_none, ?filter_resolve_none by reflexivity;
    cbn; tidy; rewrite ?app_nil_r; reflexivity.
Qed.

Lemma step_socket_requests (c : ChakraClient) (e : Event) :
  filter is_new_socket (log c) = socket_requests c ->
  filter is_new_socket (log (step c e)) = socket_requests (step c e).
Proof.
  intros H. rewrite step_new_sockets, H. unfold socket_requests.
  rewrite built_length, step_window.
  rewrite (wsUrl_opts (step c e) c (step_opts c e)).
  rewrite (bearer_opts (step c e) c (step_opts c e)).
  destruct (built c e).
  - rewrite Nat.add_1_r, seq_S, map_app. reflexivity.
  - now rewrite Nat.add_0_r, app_nil_r.
Qed.

Lemma run_socket_requests (events : list Event) (c : ChakraClient) :
  filter is_new_socket (log c) = socket_requests c ->
  filter is_new_socket (log (run c events)) = socket_requests (run c events).
Proof.
  revert c. induction events as [|e events IH]; intros c H; trivial.
  rewrite run_cons. apply IH. now apply step_socket_requests.
Qed.

Lemma run_window (events : list Event) (c : ChakraClient) :
  window (run c events) = window c.
Proof.
  revert c. induction events as [|e events IH]; intros c; trivial.
  now rewrite run_cons, IH, step_window.
Qed.

(** X6.  Every socket the client builds in a run, by [connect()], by
    [watchStream] or by a reconnect, is built for the same URL, the [wsUrl]
    of the options the client was constructed with, and with the same
    header ([Authorization: Bearer token] exactly when [window] is falsy);
    the sockets are the numbers 0, 1, 2, ... in the order they are
    built. *)
Theorem same_endpoint (o : Options) (w : bool) (events : list Event) :
  let c0 := new_client o w in
  let c := run c0 events in
  filter is_new_socket (log c) =
  map (fun sid =>
         NewWebSocket sid (wsUrl c0) (if w then None else Some (bearer c0)))
    (seq 0 (length (sockets c))).
Proof.
  intros c0 c.
  assert (H : filter is_new_socket (log c) = socket_requests c)
    by (apply run_socket_requests; reflexivity).
  rewrite H. unfold socket_requests.
  assert (Hopts : opts c = opts c0) by apply run_opts.
  rewrite (wsUrl_opts c c0 Hopts), (bearer_opts c c0 Hopts).
  unfold c. rewrite run_window. reflexivity.
Qed.

(** ** Further properties: reconnects and timers *)

Lemma step_no_reconnect (c : ChakraClient) (e : Event) :
  autoReconnect (opts c) = false -> timers c = [] ->
  timers (step c e) = []
  /\ (length (sockets (step c e))
      <= length (sockets c) + (if is_request e then 1 else 0))%nat.
Proof.
  intros Hauto Htimers. rewrite built_length. split.
  - destruct e; unfold_step; split_cases; tidy; trivial.
    all: rewrite Htimers in *; destruct n; discriminate.
  - destruct e; unfold built; simpl; try lia.
    + destruct ctor; simpl; lia.
    + destruct ctor; [destruct (connected c)|]; simpl; lia.
    + rewrite Htimers. destruct ctor, n; simpl; lia.
Qed.

Lemma run_no_reconnect (events : list Event) (c : ChakraClient) :
  autoReconnect (opts c) = false -> timers c = [] ->
  timers (run c events) = []
  /\ (length (sockets (run c events))
      <= length (sockets c) + length (filter is_request events))%nat.
Proof.
  revert c. induction events as [|e events IH]; intros c Hauto Htimers.
  - simpl. split; [exact Htimers|lia].
  - destruct (step_no_reconnect c e Hauto Htimers) as [Ht Hs].
    rewrite run_cons.
    destruct (IH (step c e)) as [Ht' Hs'];
      [now rewrite step_opts | exact Ht |].
    split; [exact Ht'|]. cbn [filter].
    destruct (is_request e); simpl; lia.
Qed.

Lemma run_timeouts_off (events : list Event) (c : ChakraClient) :
  autoReconnect (opts c) = false ->
  count is_timeout (log (run c events)) = count is_timeout (log c).
Proof.
  revert c. induction events as [|e events IH]; intros c Hauto; trivial.
  rewrite run_cons, IH by (now rewrite step_opts).
  destruct e; unfold_step; split_cases; count_log;
    rewrite ?Hauto in *; try discriminate; lia.
Qed.

(** X7.  With [autoReconnect] off the client never connects by itself: in
    every run of a client constructed with that option no timer is ever
    set, and the client builds at most one socket per call of [connect()]
    or [watchStream]. *)
Theorem no_reconnect (o : Options) (w : bool) (events : list Event) :
  autoReconnect o = false ->
  let c := run (new_client o w) events in
  timers c = []
  /\ count is_timeout (log c) = 0%nat
  /\ (length (sockets c) <= length (filter is_request events))%nat.
Proof.
  intros Hauto c.
  destruct (run_no_reconnect events (new_client o w) Hauto eq_refl)
    as [Ht Hs].
  split; [exact Ht|]. split; [|exact Hs].
  unfold c. now rewrite run_timeouts_off.
Qed.

Example no_reconnect_witness :
  autoReconnect manual_options = false /\
  timers (run (new_client manual_options true)
            [CallConnect Constructs; SockOpen 0; SockClose 0 "1006"]) = [].
Proof.
  split; [reflexivity|].
  exact (proj1 (@no_reconnect manual_options true
                  [CallConnect Constructs; SockOpen 0; SockClose 0 "1006"]
                  eq_refl)).
Defined.

Lemma step_timer_kept (c : ChakraClient) (e : Event) (n : nat)
    (d : float) :
  is_timer e = false ->
  nth_error (timers c) n = Some d ->
  nth_error (timers (step c e)) n = Some d.
Proof.
  intros He Hn.
  assert (Hlt : (n < length (timers c))%nat)
    by (apply nth_error_Some; congruence).
  destruct e; try discriminate; unfold_step; split_cases; trivial;
    now rewrite nth_error_app1.
Qed.

Lemma run_timer_kept (events : list Event) (c : ChakraClient) (n : nat)
    (d : float) :
  forallb (fun e => negb (is_timer e)) events = true ->
  nth_error (timers c) n = Some d ->
  nth_error (timers (run c events)) n = Some d.
Proof.
  revert c. induction events as [|e events IH]; intros c Hall Hn; trivial.
  simpl in Hall. apply andb_true_iff in Hall. destruct Hall as [He Hall].
  apply negb_true_iff in He.
  rewrite run_cons. apply IH; [exact Hall|]. now apply step_timer_kept.
Qed.

(** X8.  Nothing cancels a reconnect timer: a timer set by a Close stays
    pending through every task that is not a timer, a successful Open and a
    call of [connect()] included; unless the client is destroyed, it then
    fires and builds one more socket, which becomes [this.socket], also
    when the client is connected again by then. *)
Theorem reconnect_not_cancelled (c : ChakraClient) (n : nat)
    (delay : float)
    (events : list Event) :
  destroyed c = false ->
  nth_error (timers c) n = Some delay ->
  forallb (fun e => negb (is_timer e)) events = true ->
  let c' := run c events in
  nth_error (timers c') n = Some delay
  /\ sockets (step c' (TimerFires n Constructs))
     = sockets c' ++ [new_socket None]
  /\ socket (step c' (TimerFires n Constructs))
     = Some (length (sockets c'))
  /\ connected (step c' (TimerFires n Constructs)) = connected c'.
Proof.
  intros Hlive Hn Hall c'.
  assert (Hn' : nth_error (timers c') n = Some delay)
    by (now apply run_timer_kept).
  assert (Hlive' : destroyed c' = false)
    by (unfold c'; now rewrite run_destroyed).
  split; [exact Hn'|].
  unfold step. rewrite Hn'. unfold on_timeout. cbn. rewrite Hlive'. cbn.
  repeat split.
Qed.

Example reconnect_not_cancelled_witness :
  (destroyed closed_once = false
   /\ nth_error (timers closed_once) 0 = Some 2000%float
   /\ connected (run closed_once [CallConnect Constructs; SockOpen 1])
      = true)
  /\ sockets (step (run closed_once [CallConnect Constructs; SockOpen 1])
                (TimerFires 0 Constructs))
     = sockets (run closed_once [CallConnect Constructs; SockOpen 1])
         ++ [new_socket None].
Proof.
  assert (H1 : destroyed closed_once = false) by (vm_compute; reflexivity).
  assert (H2 : nth_error (timers closed_once) 0 = Some 2000%float)
    by (vm_compute; reflexivity).
  split; [repeat split; try assumption; vm_compute; reflexivity|].
  exact (proj1 (proj2 (@reconnect_not_cancelled closed_once 0%nat 2000%float
                         [CallConnect Constructs; SockOpen 1]
                         H1 H2 eq_refl))).
Defined.

(** ** Further properties: [watchStream] when the constructor throws *)

Lemma log_grows (c : ChakraClient) (e : Event) :
  exists l, log (step c e) = log c ++ l.
Proof.
  destruct e; unfold_step; split_cases; unfold add_log; cbn;
    rewrite <- ?app_assoc;
    first [ eexists; reflexivity | exists []; now rewrite app_nil_r ].
Qed.

Lemma calls_grow (w : nat) (events : list Event) (c : ChakraClient) :
  (calls w (log c) <= calls w (log (run c events)))%nat.
Proof.
  revert c. induction events as [|e events IH]; intros c; [simpl; lia|].
  rewrite run_cons. specialize (IH (step c e)).
  destruct (log_grows c e) as [l Hl]. rewrite Hl in IH.
  unfold calls in *. rewrite count_app in IH. lia.
Qed.

(** X9.  When [watchStream] is called on a client that is not connected
    and the socket constructor throws, the promise of [connect()] is
    rejected and the failure handler of the call gets what was thrown; no
    socket is built, nothing is registered, and the pending calls, those of
    the same name included, are left as they are (they are not superseded).
    That failure handler is the only handler of the call that is ever
    called: in every continuation it stays called exactly once. *)
Theorem watchStream_constructor_throws (o : Options) (w0 : bool)
    (events : list Event) (name x : string) :
  let c := run (new_client o w0) events in
  connected c = false ->
  let c' := watchStream name (Throws x) c in
  (callbacks c' = callbacks c /\ sockets c' = sockets c
   /\ socket c' = socket c /\ timers c' = timers c)
  /\ log c' = log c ++ [ConnectRejected x;
                        Call (PromiseReject (watches c)) (VThrown x)]
  /\ forall more, calls (watches c) (log (run c' more)) = 1%nat.
Proof.
  intros c Hconn c'.
  assert (Hc' : c' = add_log [Call (PromiseReject (watches c)) (VThrown x)]
                       (add_log [ConnectRejected x]
                          (set_watches (S (watches c)) c))).
  { unfold c', watchStream. cbn. now rewrite Hconn. }
  split; [rewrite Hc'; repeat split|].
  split; [rewrite Hc'; cbn; now rewrite <- app_assoc|].
  intros more.
  assert (Hinv : pending_inv c)
    by (apply pending_inv_run, pending_inv_init).
  destruct Hinv as [_ Hlife].
  destruct (Hlife (watches c)) as [_ Hzero].
  specialize (Hzero (Nat.le_refl _)). unfold lifetime in Hzero.
  assert (Hone : calls (watches c) (log c') = 1%nat).
  { rewrite Hc'. unfold calls in *. cbn. rewrite !count_app, !count_cons.
    cbn. rewrite Nat.eqb_refl, !count_nil. lia. }
  pose proof (calls_grow (watches c) more c') as Hge.
  assert (Hinv' : pending_inv (run c' more)).
  { apply pending_inv_run.
    change c' with (step c (CallWatchStream name (Throws x))).
    apply pending_inv_step. apply pending_inv_run, pending_inv_init. }
  destruct Hinv' as [_ Hlife'].
  destruct (Hlife' (watches c)) as [Hle _]. unfold lifetime in Hle.
  lia.
Qed.

Example watchStream_constructor_throws_witness :
  connected (run (new_client DEFAULT_OPTS true) []) = false /\
  log (watchStream "A" (Throws "SyntaxError")
         (run (new_client DEFAULT_OPTS true) []))
  = log (run (new_client DEFAULT_OPTS true) [])
      ++ [ConnectRejected "SyntaxError";
          Call (PromiseReject
                  (watches (run (new_client DEFAULT_OPTS true) [])))
            (VThrown "SyntaxError")].
Proof.
  split; [reflexivity|].
  exact (proj1 (proj2 (@watchStream_constructor_throws DEFAULT_OPTS true []
                         "A" "SyntaxError" eq_refl))).
Defined.

(** ** Further properties: the request and its response *)

(** X10.  On a connected client, after [watchStream(name)] a signal of the
    peer that is a candidate sends nothing, and a signal that is not a
    candidate sends one message on [this.socket]: action "Connect", the
    name as stream, the description and the token.  An inbound message
    whose stream is the stream of that request calls a handler of this call
    of [watchStream], and only this one: its [onStream] with the payload
    when the status is 200, its failure handler with the error when the
    status is another one and a listener is attached to "error"; after it
    the registry has no entry of that name.  With another status and no
    listener of "error" the emit throws: no handler is called and the
    registry stays as it is. *)
Theorem request_response (c : ChakraClient) (name : string)
    (ctor : Construction) (sid : nat) :
  connected c = true ->
  socket c = Some sid ->
  let c1 := watchStream name ctor c in
  (forall data, no_candidate data = false -> on_signal name data c1 = c1)
  /\ (forall data,
        no_candidate data = true ->
        let request := signal_message name data c in
        let c2 := on_signal name data c1 in
        log c2 = log c1 ++ [SocketSend sid request]
        /\ callbacks c2 = callbacks c1
        /\ (forall response,
              msg_stream response = out_stream request ->
              msg_status response = 200 \/ error_listeners c <> 0%nat ->
              log (on_message response c2)
                = log c2 ++ response_effects (watches c) response
              /\ filter (same_stream name)
                   (callbacks (on_message response c2)) = [])
        /\ (forall response,
              msg_status response <> 200 ->
              error_listeners c = 0%nat ->
              log (on_message response c2)
                = log c2 ++ [Emit "error" (VError (status_error response));
                             Uncaught (VError (status_error response))]
              /\ callbacks (on_message response c2) = callbacks c2)).
Proof.
  intros Hconn Hsock c1.
  assert (Hc1 : c1 = add_log
      (map (fun cb => Call (cb_reject cb) (VError superseded))
         (filter (same_stream name) (callbacks c)))
      (set_callbacks
         (filter (other_stream name) (callbacks c) ++
            [pending name (watches c)])
         (set_watches (S (watches c)) c)))
    by (apply watchStream_connected; assumption).
  split.
  - intros data Hcand. unfold on_signal. now rewrite Hcand.
  - intros data Hcand request c2.
    assert (Hc2 : c2 = add_log [SocketSend sid request] c1).
    { unfold c2, on_signal, send. rewrite Hcand.
      assert (Hs1 : socket c1 = Some sid) by (rewrite Hc1; exact Hsock).
      rewrite Hs1. unfold request, signal_message.
      now rewrite Hc1. }
    assert (Hl2 : error_listeners c2 = error_listeners c)
      by (rewrite Hc2, Hc1; reflexivity).
    split; [rewrite Hc2; reflexivity|].
    split; [rewrite Hc2; reflexivity|].
    split.
    + intros response Hstream Hheard. simpl in Hstream.
      assert (Hcb2 : callbacks c2 =
                filter (other_stream name) (callbacks c) ++
                  [pending name (watches c)])
        by (rewrite Hc2, Hc1; reflexivity).
      destruct (registered_last name (watches c) (callbacks c))
        as [Hsame Hother].
      rewrite <- Hl2 in Hheard.
      split.
      * apply response_only; [|exact Hheard].
        rewrite Hstream, Hcb2. exact Hsame.
      * destruct (on_message_log response c2) as [_ [Hcb _]].
        assert (Hb : negb (msg_status response =? 200)
                     && emit_throws "error" c2 = false).
        { destruct Hheard as [Hok|Hheard].
          - now rewrite Hok.
          - rewrite emit_heard by assumption. apply andb_false_r. }
        rewrite Hcb, Hb, Hstream, Hcb2. rewrite Hother.
        apply filter_same_other.
    + intros response Hstatus Hunheard. rewrite <- Hl2 in Hunheard.
      rewrite unheard_failure_state by assumption.
      split; reflexivity.
Qed.

Example request_response_witness :
  (connected client_s1 = true /\ socket client_s1 = Some 0%nat
   /\ no_candidate offer = true)
  /\ log (on_signal "A" offer (watchStream "A" Constructs client_s1))
     = log (watchStream "A" Constructs client_s1)
         ++ [SocketSend 0 (signal_message "A" offer client_s1)].
Proof.
  split; [repeat split|].
  exact (proj1 (proj2 (@request_response client_s1 "A" Constructs 0%nat
                         eq_refl eq_refl) offer eq_refl)).
Defined.

(** ** Further properties: the Close of any socket *)

(** X11.  The 'close' listener does not look at which socket closed: the
    Close of any socket the client built, also of one that was replaced
    long ago while the current one is open, sets [connected] to false, and
    the next [watchStream] then calls [connect()]: it builds one more
    socket and waits for it, registering nothing and rejecting nothing
    until that socket opens. *)
Theorem close_of_any_socket (c : ChakraClient) (sid : nat) (code : string)
    (name : string) :
  delivered c sid = true ->
  let c1 := step c (SockClose sid code) in
  let c2 := watchStream name Constructs c1 in
  connected c1 = false
  /\ callbacks c1 = callbacks c
  /\ socket c1 = socket c
  /\ sockets c2 = sockets c1 ++ [new_socket (Some (watches c, name))]
  /\ socket c2 = Some (length (sockets c))
  /\ callbacks c2 = callbacks c
  /\ count is_call (log c2) = count is_call (log c).
Proof.
  intros Hsid c1 c2. unfold delivered in Hsid.
  assert (Hc1 : connected c1 = false /\ callbacks c1 = callbacks c
                /\ socket c1 = socket c /\ watches c1 = watches c
                /\ length (sockets c1) = length (sockets c)
                /\ count is_call (log c1) = count is_call (log c)).
  { unfold c1, step. destruct (nth_error (sockets c) sid); [|discriminate].
    unfold on_close, emit. cbn.
    destruct (autoReconnect (opts c) && negb (destroyed c)); cbn;
      rewrite update_socket_length; repeat split;
      rewrite ?count_app, ?count_cons, ?count_nil; cbn; lia. }
  destruct Hc1 as [Hconn [Hcb [Hsock [Hw [Hlen Hcalls]]]]].
  pose proof (watchStream_connecting name c1 Hconn) as Hc2. fold c2 in Hc2.
  split; [exact Hconn|]. split; [exact Hcb|]. split; [exact Hsock|].
  assert (Hs2 : sockets c2
                = sockets c1 ++ [new_socket (Some (watches c1, name))])
    by (rewrite Hc2; reflexivity).
  assert (Hk2 : socket c2 = Some (length (sockets c1)))
    by (rewrite Hc2; reflexivity).
  assert (Hcb2 : callbacks c2 = callbacks c1)
    by (rewrite Hc2; reflexivity).
  assert (Hl2 : count is_call (log c2) = count is_call (log c1)).
  { rewrite Hc2. unfold add_log. cbn.
    rewrite count_app, count_cons, count_nil. cbn. lia. }
  rewrite Hs2, Hk2, Hcb2, Hl2, Hw, Hlen, Hcb, Hcalls. repeat split.
Qed.

Example close_of_any_socket_witness :
  delivered reconnected_by_hand 0 = true /\
  connected reconnected_by_hand = true /\
  connected (step reconnected_by_hand (SockClose 0 "1006")) = false.
Proof.
  assert (H : delivered reconnected_by_hand 0 = true)
    by (vm_compute; reflexivity).
  split; [exact H|]. split; [vm_compute; reflexivity|].
  exact (proj1 (@close_of_any_socket reconnected_by_hand 0%nat "1006" "A"
                  H)).
Defined.

(** ** Further properties: the constructor *)

Lemma append_assoc3 (a b d : string) :
  ((a ++ b) ++ d = a ++ b ++ d)%string.
Proof.
  induction a as [|x a IH]; simpl; [reflexivity|]. now rewrite IH.
Qed.

(** X12.  When the [url] option is given, it decides the endpoint whatever
    the discrete options say.  For a [ws:] or [wss:] URL whose [url.port]
    is not empty (the URL names a port, from 0 to 65535, that is not the
    default port of its scheme), [wsUrl] is the parsed URL again (protocol, host, port and
    path), and [apiUrl] is the same host and port under [http] or, for
    [wss:], under [https].  When [url.port] is empty (the URL names no
    port, or names the default port of its scheme), the port of both is
    0. *)
Theorem url_round_trip (u : UserOptions) (x : URL) (w : bool) :
  url_protocol x = "ws:" \/ url_protocol x = "wss:" ->
  url_pathname x <> "" ->
  let c := new_client (constructor u (Some x)) w in
  (forall p,
     url_port x = Some p ->
     0 <= p <= 65535 ->
     wsUrl c
       = (url_protocol x ++ "//" ++ url_hostname x ++ ":" ++ toString p
          ++ url_pathname x)%string
     /\ apiUrl c
        = ((if String.eqb (url_protocol x) "wss:" then "https" else "http")
           ++ "://" ++ url_hostname x ++ ":" ++ toString p)%string)
  /\ (url_port x = None ->
      wsUrl c
        = (url_protocol x ++ "//" ++ url_hostname x ++ ":0"
           ++ url_pathname x)%string
      /\ apiUrl c
         = ((if String.eqb (url_protocol x) "wss:" then "https" else "http")
            ++ "://" ++ url_hostname x ++ ":0")%string).
Proof.
  intros Hproto Hpath c.
  apply String.eqb_neq in Hpath.
  split.
  - intros p Hport _.
    unfold wsUrl, apiUrl, hostname, path_or_root. cbn.
    rewrite Hport, Hpath. cbn. rewrite !append_assoc3.
    destruct Hproto as [-> | ->]; split; reflexivity.
  - intros Hport.
    unfold wsUrl, apiUrl, hostname, path_or_root. cbn.
    rewrite Hport, Hpath. cbn.
    change (toString 0) with "0". rewrite !append_assoc3.
    destruct Hproto as [-> | ->]; split; reflexivity.
Qed.

Example url_round_trip_witness :
  (url_protocol example_url = "wss:" /\ url_port example_url = Some 8443
   /\ 0 <= 8443 <= 65535
   /\ url_pathname example_url <> "")
  /\ wsUrl (new_client (constructor no_options (Some example_url)) true)
     = "wss://example.com:8443/signal"
  /\ (url_port default_port_url = None
      /\ wsUrl (new_client (constructor no_options (Some default_port_url))
                  true)
         = "wss://example.com:0/signal").
Proof.
  assert (H : url_pathname example_url <> "") by discriminate.
  assert (H' : url_pathname default_port_url <> "") by discriminate.
  assert (Hp : 0 <= 8443 <= 65535) by lia.
  split; [repeat split; solve [exact H | discriminate]|]. split.
  - exact (proj1 (proj1 (@url_round_trip no_options example_url true
                           (or_intror eq_refl) H) 8443 eq_refl Hp)).
  - split; [reflexivity|].
    exact (proj1 (proj2 (@url_round_trip no_options default_port_url true
                           (or_intror eq_refl) H') eq_refl)).
Defined.

(** X13.  What the constructor does with missing parts.  A [url] without an
    explicit port gives the port 0; a [url] whose protocol is not [wss:]
    (so also an [https:] one) gives a client that is not secure, with
    [ws://] and [http://] URLs; the [url] leaves the token and the
    reconnect options to the discrete options and the defaults.  Without
    [url], a missing [port] is written as "undefined" in the host name, and
    a missing or empty [path] is "/". *)
Theorem constructor_missing_parts (u : UserOptions) (x : URL) (w : bool) :
  let with_url := new_client (constructor u (Some x)) w in
  let without_url := new_client (constructor u None) w in
  (url_port x = None ->
   hostname with_url = (url_hostname x ++ ":0")%string)
  /\ (url_protocol x <> "wss:" ->
      wsUrl with_url
        = ("ws://" ++ hostname with_url ++ path_or_root with_url)%string
      /\ apiUrl with_url = ("http://" ++ hostname with_url)%string)
  /\ (token (opts with_url) = token (opts without_url)
      /\ autoReconnect (opts with_url) = autoReconnect (opts without_url)
      /\ reconnectInterval (opts with_url)
         = reconnectInterval (opts without_url)
      /\ reconnectIntervalMultiplier (opts with_url)
         = reconnectIntervalMultiplier (opts without_url))
  /\ (u_port u = None ->
      hostname without_url
        = (or_default (u_host u) "127.0.0.1" ++ ":undefined")%string)
  /\ (u_path u = None \/ u_path u = Some "" ->
      path_or_root without_url = "/").
Proof.
  intros with_url without_url.
  split; [|split; [|split; [|split]]].
  - intros Hport. unfold hostname. cbn. now rewrite Hport.
  - intros Hproto. apply String.eqb_neq in Hproto.
    unfold wsUrl, apiUrl. cbn. rewrite Hproto. split; reflexivity.
  - repeat split.
  - intros Hport. unfold hostname. cbn. now rewrite Hport.
  - intros [Hpath|Hpath]; unfold path_or_root; cbn; now rewrite Hpath.
Qed.

Example constructor_missing_parts_witness :
  u_port no_options = None /\
  hostname (new_client (constructor no_options None) true)
    = (or_default (u_host no_options) "127.0.0.1" ++ ":undefined")%string.
Proof.
  split; [reflexivity|].
  exact (proj1 (proj2 (proj2 (proj2
           (constructor_missing_parts no_options example_url true)))) eq_refl).
Defined.

(** ** Further properties: [send] and [createStream] *)

Lemma forget_step (c : ChakraClient) (e : Event) :
  forget_log (step c e) = forget_log (step (forget_log c) e).
Proof.
  destruct c. destruct e; unfold forget_log; unfold_step; cbn;
    split_cases; reflexivity.
Qed.

Lemma forget_io (c : ChakraClient) (e : Event) :
  is_io e = true -> forget_log (step c e) = forget_log c.
Proof.
  destruct e; try discriminate; intros _; unfold_step; split_cases;
    reflexivity.
Qed.

Lemma forget_run (events : list Event) (c c' : ChakraClient) :
  forget_log c = forget_log c' ->
  forget_log (run c events)
    = forget_log (run c' (filter (fun e => negb (is_io e)) events)).
Proof.
  revert c c'. induction events as [|e events IH]; intros c c' H; trivial.
  rewrite run_cons. cbn [filter].
  destruct (is_io e) eqn:E; cbn [negb].
  - apply IH. now rewrite forget_io.
  - rewrite run_cons. apply IH.
    now rewrite forget_step, H, <- forget_step.
Qed.

(** X14.  [send] and [createStream] change nothing but what goes out: a
    run with calls of them and the same run without these calls end with
    the same registry, sockets, timers, flags, counter and listeners of
    "error". *)
Theorem io_leaves_state (c : ChakraClient) (events : list Event) :
  let c1 := run c events in
  let c2 := run c (filter (fun e => negb (is_io e)) events) in
  callbacks c1 = callbacks c2
  /\ sockets c1 = sockets c2
  /\ socket c1 = socket c2
  /\ timers c1 = timers c2
  /\ connected c1 = connected c2
  /\ reconnectTries c1 = reconnectTries c2
  /\ watches c1 = watches c2
  /\ error_listeners c1 = error_listeners c2.
Proof.
  intros c1 c2.
  assert (H : forget_log c1 = forget_log c2)
    by (apply forget_run; reflexivity).
  repeat split;
    [ exact (f_equal callbacks H) | exact (f_equal sockets H)
    | exact (f_equal socket H) | exact (f_equal timers H)
    | exact (f_equal connected H) | exact (f_equal reconnectTries H)
    | exact (f_equal watches H) | exact (f_equal error_listeners H) ].
Qed.

(** ** Further properties: a response nobody waits for *)

(** X15.  An inbound message with status 200 for a stream that has no
    pending call is dropped: the registry stays as it is and no handler is
    called; the client only emits "stream-data" when the action is
    "Connect", and does nothing at all for any other action. *)
Theorem response_without_pending_call (message : Message)
    (c : ChakraClient) :
  msg_status message = 200 ->
  filter (same_stream (msg_stream message)) (callbacks c) = [] ->
  callbacks (on_message message c) = callbacks c
  /\ (msg_action message = ACTION_CONNECT ->
      on_message message c = emit "stream-data" (VMessage message) c)
  /\ (msg_action message <> ACTION_CONNECT -> on_message message c = c).
Proof.
  intros Hstatus Hnone.
  pose proof (filter_none _ _ Hnone) as Hkeep.
  change (filter (other_stream (msg_stream message)) (callbacks c)
          = callbacks c) in Hkeep.
  unfold on_message. rewrite Hstatus, Z.eqb_refl.
  rewrite this_resolveCallbacks_spec.
  destruct (String.eqb (msg_action message) ACTION_CONNECT) eqn:E.
  - cbn. rewrite Hnone, Hkeep. cbn. rewrite add_log_nil.
    split; [reflexivity|]. split.
    + intros _.
      apply (set_callbacks_same (emit "stream-data" (VMessage message) c)).
    + intros Hne. apply String.eqb_eq in E. contradiction.
  - rewrite Hnone, Hkeep. cbn. rewrite add_log_nil, set_callbacks_same.
    split; [reflexivity|]. split; [|reflexivity].
    intros He. apply String.eqb_neq in E. contradiction.
Qed.

Example response_without_pending_call_witness :
  (msg_status (inbound "Offer" 200 "s2") = 200
   /\ filter (same_stream (msg_stream (inbound "Offer" 200 "s2")))
        (callbacks client_s1) = []
   /\ msg_action (inbound "Offer" 200 "s2") <> ACTION_CONNECT)
  /\ on_message (inbound "Offer" 200 "s2") client_s1 = client_s1.
Proof.
  assert (Hne : msg_action (inbound "Offer" 200 "s2") <> ACTION_CONNECT)
    by discriminate.
  split; [repeat split; exact Hne|].
  exact (proj2 (proj2 (@response_without_pending_call
                         (inbound "Offer" 200 "s2") client_s1
                         eq_refl eq_refl)) Hne).
Defined.
